(** * medallion/views/objects.py: the Objects views of the TAXII server

    A shallow embedding of the request-handling helpers and of the two view
    functions of [medallion/views/objects.py], and the properties of them
    that the specification states.

    Conventions of the embedding.
    - Python [str] is [string]: header values reach the application as
      latin-1 text, one character per byte, so [\d] in a pattern matches
      exactly the characters 0..9 and string comparison is the
      lexicographic order on character codes. Query values are taken from
      the same 256 characters; text with characters beyond them is outside
      the model.
    - Python [int] is [Z].
    - A raised exception is the [Raise] branch of [result]; [flask.request]
      and [flask.current_app] are passed explicitly.
    - Values handed over by the storage backend (collection records,
      api-root records, bundles) are [value]s, so that [None], a missing
      key and a flag that is not a boolean all stay visible. *)

From Stdlib Require Import ZArith String Ascii List Permutation Sorted Lia.
From stdpp Require Import base option list sorting strings gmap pretty.

Local Open Scope string_scope.
Local Open Scope Z_scope.

#[local] Arguments String.append !_ _ : simpl nomatch.

(** ** Python values *)

Local Unset Elimination Schemes.

Inductive value : Type :=
| VNone
| VBool (b : bool)
| VInt (n : Z)
| VStr (s : string)
| VList (xs : list value)
| VDict (kv : list (string * value)).

(** ** Exceptions and results *)

(** Modelled from the spec: [ProcessingError], the class of
    [medallion/exceptions.py], which is not among the sources: a message, an
    HTTP status, optional extra headers (the attribute [headers], which
    [get_response_status_and_headers] sets on the instance before raising
    it) and an optional cause (the third argument of the constructor). The
    other constructors are the built-in exceptions the module can meet;
    [OtherException] stands for any further one a collaborator raises. *)
Inductive exn : Type :=
| ProcessingError (message : string) (status : Z)
    (headers : option (gmap string string)) (cause : option exn)
| TypeError (msg : string)
| KeyError (key : string)
| ValueError (msg : string)
| AttributeError (msg : string)
| OtherException (msg : string).

Local Set Elimination Schemes.

Inductive result (A : Type) : Type :=
| Ok (a : A)
| Raise (e : exn).
Arguments Ok {A} a.
Arguments Raise {A} e.

#[global] Instance result_ret : MRet result := fun A a => Ok a.
#[global] Instance result_bind : MBind result := fun A B f c =>
  match c with
  | Ok a => f a
  | Raise e => Raise e
  end.

(** [try: c except handles(e): raise h e]: an exception accepted by
    [handles] is replaced, any other one propagates. *)
Definition try_except {A} (c : result A) (handles : exn -> bool)
    (h : exn -> exn) : result A :=
  match c with
  | Ok a => Ok a
  | Raise e => if handles e then Raise (h e) else Raise e
  end.

Definition is_processing_error (e : exn) : bool :=
  match e with ProcessingError _ _ _ _ => true | _ => false end.

Definition http_status (e : exn) : option Z :=
  match e with ProcessingError _ s _ _ => Some s | _ => None end.

Definition error_headers (e : exn) : option (gmap string string) :=
  match e with ProcessingError _ _ h _ => h | _ => None end.

(** ** Operations on values *)

(** [bool(v)] *)
Definition truthy (v : value) : bool :=
  match v with
  | VNone => false
  | VBool b => b
  | VInt n => negb (n =? 0)
  | VStr s => negb (String.eqb s "")
  | VList xs => match xs with [] => false | _ => true end
  | VDict kv => match kv with [] => false | _ => true end
  end.

Fixpoint assoc {A} (k : string) (kv : list (string * A)) : option A :=
  match kv with
  | [] => None
  | (k', v) :: kv' => if String.eqb k k' then Some v else assoc k kv'
  end.

(** [v[key]] for a string key: only a dict can be subscripted by a string. *)
Definition subscript (v : value) (key : string) : result value :=
  match v with
  | VDict kv =>
      match assoc key kv with
      | Some x => Ok x
      | None => Raise (KeyError key)
      end
  | VNone => Raise (TypeError "'NoneType' object is not subscriptable")
  | VBool _ => Raise (TypeError "'bool' object is not subscriptable")
  | VInt _ => Raise (TypeError "'int' object is not subscriptable")
  | VStr _ => Raise (TypeError "string indices must be integers")
  | VList _ => Raise (TypeError "list indices must be integers or slices, not str")
  end.

(** [v is False] *)
Definition is_False (v : value) : bool :=
  match v with VBool false => true | _ => false end.

(** [n > v] for an [int] n: defined against an int (a bool counts as 0/1),
    a [TypeError] against anything else. *)
Definition int_gt (n : Z) (v : value) : result bool :=
  match v with
  | VInt m => Ok (m <? n)
  | VBool b => Ok (Z.b2z b <? n)
  | _ => Raise (TypeError "'>' not supported between instances")
  end.

(** ** Strings *)

(** ["{}".format(n)] for an int *)
Definition format_int (n : Z) : string := pretty n.

(** ["{}".format(o)] for a [str] or [None] *)
Definition format_opt (o : option string) : string :=
  match o with Some s => s | None => "None" end.

Definition is_digit (c : ascii) : bool :=
  (48 <=? Z.of_N (N_of_ascii c)) && (Z.of_N (N_of_ascii c) <=? 57).

Definition digit_val (c : ascii) : Z := Z.of_N (N_of_ascii c) - 48.

(** [s.replace(" ", "")] *)
Fixpoint remove_spaces (s : string) : string :=
  match s with
  | EmptyString => EmptyString
  | String c s' =>
      if Ascii.eqb c " " then remove_spaces s' else String c (remove_spaces s')
  end.

(** [s.split(",")]: never empty, [""] splits to [[""]]. *)
Fixpoint split_comma (s : string) : list string :=
  match s with
  | EmptyString => [EmptyString]
  | String c s' =>
      if Ascii.eqb c "," then EmptyString :: split_comma s'
      else match split_comma s' with
           | [] => [String c EmptyString]
           | w :: ws => String c w :: ws
           end
  end.

(** [Some rest] when [s = p ++ rest]. *)
Fixpoint strip_prefix (p s : string) : option string :=
  match p with
  | EmptyString => Some s
  | String a p' =>
      match s with
      | String b s' => if Ascii.eqb a b then strip_prefix p' s' else None
      | EmptyString => None
      end
  end.

Definition newline : ascii := ascii_of_N 10.

(** [$] in a pattern without flags: the end of the string, or just before a
    newline that ends the string. *)
Definition at_end (s : string) : bool :=
  match s with
  | EmptyString => true
  | String c EmptyString => Ascii.eqb c newline
  | _ => false
  end.

(** The longest prefix of digits and what follows it: how a greedy [\d+] or
    [\d*] consumes input when the next pattern item is not a digit. *)
Fixpoint span_digits (s : string) : string * string :=
  match s with
  | EmptyString => (EmptyString, EmptyString)
  | String c s' =>
      if is_digit c then
        let '(d, r) := span_digits s' in (String c d, r)
      else (EmptyString, s)
  end.

(** *** [int(s)] for a [str]

    Base 10: optional surrounding whitespace, an optional sign, then digits
    that may be separated by single underscores, and at most
    [int_max_str_digits] of them. Anything else is a [ValueError]. The
    characters [int] skips as whitespace, among the 256 a header value can
    hold, are 9..13, 32, 133 and 160. *)

Definition is_space (c : ascii) : bool :=
  let n := Z.of_N (N_of_ascii c) in
  ((9 <=? n) && (n <=? 13)) || (n =? 32) || (n =? 133) || (n =? 160).

(** The interpreter's limit on the number of digits [int] converts, at its
    default ([sys.int_info.default_max_str_digits]). *)
Definition int_max_str_digits : Z := 4300.

Fixpoint lstrip (s : string) : string :=
  match s with
  | EmptyString => EmptyString
  | String c s' => if is_space c then lstrip s' else s
  end.

Fixpoint all_space (s : string) : bool :=
  match s with
  | EmptyString => true
  | String c s' => is_space c && all_space s'
  end.

(** The run of digits and single underscores that follows the first digit:
    the value read, the number of digits read, and what follows the run.
    [acc] and [digits] are the value and the count so far. [None] when an
    underscore is doubled or ends the run. *)
Fixpoint int_run (acc digits : Z) (s : string) : option (Z * Z * string) :=
  match s with
  | EmptyString => Some (acc, digits, EmptyString)
  | String c s' =>
      if is_digit c then int_run (acc * 10 + digit_val c) (digits + 1) s'
      else if Ascii.eqb c "_" then
        match s' with
        | String d s'' =>
            if is_digit d
            then int_run (acc * 10 + digit_val d) (digits + 1) s''
            else None
        | EmptyString => None
        end
      else Some (acc, digits, s)
  end.

Definition invalid_literal : exn :=
  ValueError "invalid literal for int() with base 10".

Definition exceeds_digit_limit : exn :=
  ValueError "Exceeds the limit (4300 digits) for integer string conversion".

(** What follows the sign: a run that starts with a digit, not longer than
    the limit, and then whitespace only. *)
Definition int_unsigned (s : string) : result Z :=
  match s with
  | String c s' =>
      if is_digit c then
        match int_run (digit_val c) 1 s' with
        | Some (n, digits, rest) =>
            if int_max_str_digits <? digits then Raise exceeds_digit_limit
            else if all_space rest then Ok n
            else Raise invalid_literal
        | None => Raise invalid_literal
        end
      else Raise invalid_literal
  | EmptyString => Raise invalid_literal
  end.

Definition int_of_str (s : string) : result Z :=
  let s1 := lstrip s in
  let '(neg, s2) :=
    match s1 with
    | String c r =>
        if Ascii.eqb c "+" then (false, r)
        else if Ascii.eqb c "-" then (true, r)
        else (false, s1)
    | EmptyString => (false, s1)
    end in
  n ← int_unsigned s2;
  Ok (if neg then - n else n).

(** [int(o)] where [o] is a match group: [None] when the group took no part. *)
Definition int_of_group (o : option string) : result Z :=
  match o with
  | Some s => int_of_str s
  | None => Raise (TypeError "int() argument must be a string, not 'NoneType'")
  end.

(** *** Match objects

    A successful [re.match] is represented by its [groups()]: one entry per
    group of the pattern, [None] for a group that took no part. *)

Definition Match : Type := list (option string).

(** [m.group(i)] for [i >= 1] *)
Definition group (m : Match) (i : nat) : option string :=
  match m !! pred i with
  | Some g => g
  | None => None
  end.

(** [matches.group(i)] where [matches] may be [None]. *)
Definition group_of (matches : option Match) (i : nat) : result (option string) :=
  match matches with
  | Some m => Ok (group m i)
  | None => Raise (AttributeError "'NoneType' object has no attribute 'group'")
  end.

(** [re.match(r"^application/vnd\.oasis\.stix\+json(;version=(\d\.\d))?$", item)] *)
Definition re_match_stix (item : string) : option Match :=
  match strip_prefix "application/vnd.oasis.stix+json" item with
  | None => None
  | Some rest =>
      match strip_prefix ";version=" rest with
      | Some (String d1 (String dot (String d2 tl))) =>
          if is_digit d1 && Ascii.eqb dot "." && is_digit d2 && at_end tl
          then
            let v := String d1 (String dot (String d2 EmptyString)) in
            Some [Some (";version=" +:+ v); Some v]
          else None
      | Some _ => None
      | None => if at_end rest then Some [None; None] else None
      end
  end.

(** [re.match(r"^items[= ](\d+)-(\d+)$", header)] *)
Definition re_match_range (header : string) : option Match :=
  match strip_prefix "items" header with
  | Some (String sep rest) =>
      if Ascii.eqb sep "=" || Ascii.eqb sep " " then
        let '(g1, rest1) := span_digits rest in
        match g1, rest1 with
        | String _ _, String dash rest2 =>
            if Ascii.eqb dash "-" then
              let '(g2, rest3) := span_digits rest2 in
              match g2 with
              | String _ _ => if at_end rest3 then Some [Some g1; Some g2] else None
              | EmptyString => None
              end
            else None
        | _, _ => None
        end
      else None
  | _ => None
  end.

(** *** [sorted] on strings

    Insertion from the right with Python's [<] as the only test: a stable
    sort, as [sorted] is. *)

Fixpoint insert_sorted (x : string) (l : list string) : list string :=
  match l with
  | [] => [x]
  | y :: l' => if String.ltb y x then y :: insert_sorted x l' else x :: l
  end.

Definition sorted (l : list string) : list string :=
  foldr insert_sorted [] l.

(** ** The Flask objects the module works with *)

(** [flask.request]: [headers] is read with the keys the module uses
    (["content_type"], ["content_length"], ["Range"]); [args] is the query
    string in order, one pair per occurrence; [get_json] is what
    [request.get_json(force=True)] evaluates to. *)
Record Request := {
  method : string;
  headers : gmap string string;
  args : list (string * string);
  get_json : result value
}.

(** [flask.Response(response=..., status=..., headers=..., mimetype=...)] *)
Record Response := {
  response : option string;
  status : Z;
  response_headers : gmap string string;
  mimetype : string
}.

(** Modelled from the spec: an entry of the manifest the backend answers
    with (data model, ManifestEntry); the backend is not among the sources.
    [date_added] is the timestamp as text, the way it is put in a header. *)
Record ManifestEntry := {
  object_id : string;
  date_added : string;
  version : string;
  media_type : string
}.

(** [current_app.medallion_backend]: the operations the module calls, with
    the arguments it passes, each with the answer the backend gives during
    the request (a value, or an exception). *)
Record Backend := {
  get_collection : string -> string -> result value;
  get_api_root_information : string -> result value;
  get_objects :
    string -> string -> list (string * string) -> list string -> Z -> Z ->
    result (Z * value);
  add_objects : string -> string -> value -> string -> result value;
  get_object :
    string -> string -> string -> gmap string string -> list string -> Z ->
    result (value * gmap string string);
  delete_object :
    string -> string -> string -> gmap string string -> list string ->
    result unit;
  get_object_manifest :
    string -> string -> list (string * string) -> list string -> Z -> Z ->
    result (value * list ManifestEntry)
}.

(** [current_app]: the backend and [taxii_config["max_page_size"]]. *)
Record App := {
  medallion_backend : Backend;
  max_page_size : Z
}.

(** A route of a blueprint, as [Blueprint.route(rule, methods=...)] records
    it for the decorated function. *)
Record Route := {
  rule : string;
  methods : list string;
  endpoint : string
}.

(** [flask.Blueprint]: the routes recorded on it (its deferred functions),
    and whether an application has registered it. *)
Record Blueprint := {
  deferred_routes : list Route;
  got_registered_once : bool
}.

(** [request.headers.get(key)] and [request.headers.get(key, default)] *)
Definition headers_get (request : Request) (key : string) : option string :=
  headers request !! key.

Definition headers_get_default (request : Request) (key dflt : string) : string :=
  default dflt (headers request !! key).

(** [request.args.to_dict()]: the first value of every key. *)
Definition to_dict (a : list (string * string)) : gmap string string :=
  foldr (fun kv m => <[kv.1 := kv.2]> m) ∅ a.

(** [len(v)] *)
Definition len (v : value) : result Z :=
  match v with
  | VList xs => Ok (Z.of_nat (length xs))
  | VDict kv => Ok (Z.of_nat (length kv))
  | VStr s => Ok (Z.of_nat (String.length s))
  | VNone => Raise (TypeError "object of type 'NoneType' has no len()")
  | VBool _ => Raise (TypeError "object of type 'bool' has no len()")
  | VInt _ => Raise (TypeError "object of type 'int' has no len()")
  end.

Definition is_ValueError (e : exn) : bool :=
  match e with ValueError _ => true | _ => false end.

Definition is_AttributeError_or_ValueError (e : exn) : bool :=
  match e with AttributeError _ | ValueError _ => true | _ => false end.

(** ** The helpers of objects.py *)

Definition permission_to_read (app : App) (api_root collection_id : string)
    : result unit :=
  collection_info ← get_collection (medallion_backend app) api_root collection_id;
  can_read ← subscript collection_info "can_read";
  if is_False can_read then
    Raise (ProcessingError
             ("Forbidden to read collection '" +:+ collection_id +:+ "'")
             403 None None)
  else Ok ().

Definition permission_to_write (app : App) (api_root collection_id : string)
    : result unit :=
  collection_info ← get_collection (medallion_backend app) api_root collection_id;
  can_write ← subscript collection_info "can_write";
  if is_False can_write then
    Raise (ProcessingError
             ("Forbidden to write collection '" +:+ collection_id +:+ "'")
             403 None None)
  else Ok ().

Definition collection_exists (app : App) (api_root collection_id : string)
    : result unit :=
  collection_info ← get_collection (medallion_backend app) api_root collection_id;
  if negb (truthy collection_info) then
    Raise (ProcessingError
             ("Collection '" +:+ collection_id +:+ "' not found") 404 None None)
  else Ok ().

(** The [for] loop of [validate_version_parameter_in_content_type_header]:
    the value of [found] when the loop ends, or the error raised in it. *)
Fixpoint content_type_loop (content_type : list string) : result bool :=
  match content_type with
  | [] => Ok false
  | item :: rest =>
      match re_match_stix item with
      | Some result =>
          if (2 <=? length result)%nat then
            let version_str := group result 2 in
            if negb (bool_decide (version_str = Some "2.0")) then
              Raise (ProcessingError
                       ("The server does not support version "
                        +:+ format_opt version_str)
                       415 None None)
            else Ok true
          else Ok true
      | None => content_type_loop rest
      end
  end.

Definition validate_version_parameter_in_content_type_header
    (request : Request) : result unit :=
  let content_type :=
    split_comma (remove_spaces (headers_get_default request "content_type" "")) in
  found ← content_type_loop content_type;
  if negb found then
    Raise (ProcessingError
             "Media type in the Content-Type header is invalid or not found"
             415 None None)
  else Ok ().

Definition permission_to_read_and_write (app : App)
    (api_root collection_id : string) : result unit :=
  collection_info ← get_collection (medallion_backend app) api_root collection_id;
  can_read ← subscript collection_info "can_read";
  both ← (if is_False can_read then
            can_write ← subscript collection_info "can_write";
            Ok (is_False can_write)
          else Ok false);
  if both : bool then
    Raise (ProcessingError
             ("Collection '" +:+ collection_id +:+ "' not found") 404 None None)
  else
    can_write ← subscript collection_info "can_write";
    if is_False can_write then
      Raise (ProcessingError
               ("Forbidden to write collection '" +:+ collection_id +:+ "'")
               403 None None)
    else
      can_read ← subscript collection_info "can_read";
      if is_False can_read then
        Raise (ProcessingError
                 ("Forbidden to read collection '" +:+ collection_id +:+ "'")
                 403 None None)
      else Ok ().

Definition validate_size_in_request_body (app : App) (request : Request)
    (api_root : string) : result unit :=
  api_root ← get_api_root_information (medallion_backend app) api_root;
  max_length ← subscript api_root "max_content_length";
  content_length ←
    try_except (int_of_str (headers_get_default request "content_length" ""))
      is_ValueError
      (fun _ => ProcessingError
                  "The server did not understand the request or headers"
                  400 None None);
  too_long ← int_gt content_length max_length;
  if too_long || (content_length <=? 0) then
    Raise (ProcessingError
             "Content-Length header not valid or exceeds maximum!" 413 None None)
  else Ok ().

Definition get_range_request_from_headers (app : App) (request : Request)
    : result (Z * Z) :=
  match headers_get request "Range" with
  | Some range =>
      try_except
        (let matches := re_match_range range in
         g1 ← group_of matches 1;
         start_index ← int_of_group g1;
         g2 ← group_of matches 2;
         end_index ← int_of_group g2;
         if (end_index - start_index) + 1 >? max_page_size app then
           Ok (start_index, start_index + (max_page_size app - 1))
         else Ok (start_index, end_index))
        is_AttributeError_or_ValueError
        (fun e => ProcessingError "Bad Range header supplied" 400 None (Some e))
  | None => Ok (0, max_page_size app - 1)
  end.

Definition validate_limit_parameter (app : App) (request : Request)
    : result Z :=
  let max_page := max_page_size app in
  limit ←
    try_except
      (match assoc "limit" (args request) with
       | Some s => int_of_str s
       | None => Ok max_page
       end)
      is_ValueError
      (fun _ => ProcessingError
                  "The server did not understand the request or filter parameters"
                  400 None None);
  if limit <=? 0 then
    Raise (ProcessingError
             "The limit parameter cannot be negative or zero" 400 None None)
  else if limit >? max_page then Ok max_page
  else Ok limit.

(** [hdrs] is the dict passed in; it is updated in place and returned.
    The manifest is taken in the shape the backend contract gives it, a
    list of entries that each hold their [date_added] as text. What the
    [try] would catch for an answer of another shape (a missing key, values
    [sorted] cannot compare) ends in the same 400 and lies outside this
    typing. *)
Definition get_custom_headers (app : App) (request : Request)
    (hdrs : gmap string string) (api_root collection_id : string)
    (start end_ : Z) : result (gmap string string) :=
  try_except
    (answer ← get_object_manifest (medallion_backend app) api_root
               collection_id (args request) ["id"] start end_;
     let manifest := answer.2 in
     match manifest with
     | _ :: _ =>
         let times := sorted (map date_added manifest) in
         if (0 <? length times)%nat then
           match head times, last times with
           | Some first_, Some last_ =>
               Ok (<["X-TAXII-Date-Added-Last" := last_]>
                     (<["X-TAXII-Date-Added-First" := first_]> hdrs))
           | _, _ => Raise (OtherException "IndexError")
           end
         else Ok hdrs
     | [] => Ok hdrs
     end)
    (fun _ => true)
    (fun e => ProcessingError "Unable to build response headers" 400 None (Some e)).

Definition get_response_status_and_headers (app : App) (request : Request)
    (start_index total_count : Z) (objects : value)
    : result (Z * gmap string string) :=
  if (total_count <=? start_index) && (0 <? total_count) then
    Raise (ProcessingError
             "The requested range is outside the size of the result set" 416
             (Some (<["Content-Range" := "items */" +:+ format_int total_count]>
                      {["Accept-Ranges" := "items"]}))
             None)
  else if bool_decide (headers_get request "Range" = None)
          && (total_count <? max_page_size app) then
    Ok (200, {["Accept-Ranges" := "items"]})
  else
    n ← len objects;
    let end_index := if n =? 0 then start_index else start_index + (n - 1) in
    Ok (206,
        <["Content-Range" :=
            "items " +:+ format_int start_index +:+ "-" +:+ format_int end_index
            +:+ "/" +:+ format_int total_count]>
          {["Accept-Ranges" := "items"]}).

(** ** The views *)

(** What objects.py imports from the rest of the package: the media type
    constants and the Accept-header validators of [medallion.views], the
    api-root check of [medallion.views.discovery], [get_timestamp] of
    [medallion.common], and flask's [json.dumps]. None of them is among the
    sources: the views take them as parameters. [late_setup_raises] is the
    one point where versions of Flask differ for this module: whether a
    setup method called on a blueprint that is already registered raises
    (an [AssertionError]) or only warns. *)
Record Imports := {
  MEDIA_TYPE_STIX_V20 : string;
  MEDIA_TYPE_TAXII_V20 : string;
  validate_stix_version_parameter_in_accept_header : Request -> result unit;
  validate_taxii_version_parameter_in_accept_header : Request -> result unit;
  api_root_exists : App -> string -> result unit;
  get_timestamp : string;
  dumps : value -> string;
  late_setup_raises : bool
}.

Definition objects_rule : string :=
  "/<string:api_root>/collections/<string:collection_id>/objects/".

Definition object_rule : string :=
  "/<string:api_root>/collections/<string:collection_id>/objects/<string:object_id>/".

(** The route the decorator of [get_or_add_objects] declares. *)
Definition get_or_add_objects_route : Route :=
  {| rule := objects_rule;
     methods := ["GET"; "POST"];
     endpoint := "get_or_add_objects" |}.

(** The route the decorator of the nested [get_or_delete_object] declares. *)
Definition get_or_delete_object_route : Route :=
  {| rule := object_rule;
     methods := ["GET"; "DELETE"];
     endpoint := "get_or_delete_object" |}.

(** [Blueprint("objects", __name__)] *)
Definition new_blueprint : Blueprint :=
  {| deferred_routes := []; got_registered_once := false |}.

(** The route is put down on the blueprint, to be applied when an
    application registers it. *)
Definition record_route (bp : Blueprint) (r : Route) : Blueprint :=
  {| deferred_routes := (deferred_routes bp ++ [r])%list;
     got_registered_once := got_registered_once bp |}.

(** Modelled from Flask, which is not among the sources: [bp.route(...)]
    applied to a function. On a blueprint that no application has
    registered yet the route is recorded. On one that is registered, Flask
    either raises an [AssertionError] or warns and records the route where
    no application reads it any more. *)
Definition route (raises : bool) (bp : Blueprint) (r : Route)
    : result Blueprint :=
  if got_registered_once bp && raises then
    Raise (OtherException
             "AssertionError: the setup method 'route' can no longer be called on the blueprint")
  else Ok (record_route bp r).

(** [objects_bp] once the module is imported: [Blueprint("objects", ...)]
    and then the one [route] decorator that stands at module level. *)
Definition objects_bp : Blueprint :=
  record_route new_blueprint get_or_add_objects_route.

Section Views.

Variable imp : Imports.

(** The body of [get_or_delete_object]. ([print] writes to standard output
    only and is left out.) A Python function that ends without [return]
    gives [None]. *)
Definition get_or_delete_object (app : App) (request : Request)
    (api_root collection_id object_id : string) : result (option Response) :=
  if String.eqb (method request) "GET" then
    permission_to_read app api_root collection_id;;
    limit ← validate_limit_parameter app request;
    answer ← get_object (medallion_backend app) api_root collection_id
               object_id (to_dict (args request)) ["version"; "spec_version"]
               limit;
    let '(objects, hdrs) := answer in
    if truthy objects || match args request with [] => false | _ => true end
    then
      Ok (Some {| response := Some (dumps imp objects);
                  status := 200;
                  response_headers := hdrs;
                  mimetype := MEDIA_TYPE_STIX_V20 imp |})
    else
      Raise (ProcessingError
               ("Object '" +:+ object_id +:+ "' not found") 404 None None)
  else if String.eqb (method request) "DELETE" then
    delete_object (medallion_backend app) api_root collection_id object_id
      (to_dict (args request)) ["version"; "spec_version"];;
    Ok (Some {| response := None;
                status := 200;
                response_headers := ∅;
                mimetype := MEDIA_TYPE_STIX_V20 imp |})
  else Ok None.

(** The body of [get_or_add_objects] (what runs once [auth.login_required]
    has let the request through), with the blueprint [bp] as it is when the
    request arrives: the result of the call, and the blueprint afterwards.
    The statements after the [if]/[elif] define [get_or_delete_object] and
    apply its [route] decorator to [bp]; the function then ends without
    [return], unless the decorator raised. *)
Definition get_or_add_objects (app : App) (request : Request) (bp : Blueprint)
    (api_root collection_id : string)
    : result (option Response) * Blueprint :=
  let request_time := get_timestamp imp in
  if String.eqb (method request) "GET" then
    (validate_stix_version_parameter_in_accept_header imp request;;
     api_root_exists imp app api_root;;
     collection_exists app api_root collection_id;;
     permission_to_read app api_root collection_id;;
     range ← get_range_request_from_headers app request;
     let '(start_index, end_index) := range in
     answer ← get_objects (medallion_backend app) api_root collection_id
                (args request) ["id"; "type"; "version"] start_index end_index;
     let '(total_count, objects) := answer in
     if truthy objects then
       objs ← subscript objects "objects";
       sh ← get_response_status_and_headers app request start_index
              total_count objs;
       let '(status_, hdrs) := sh in
       hdrs ← get_custom_headers app request hdrs api_root collection_id
                start_index end_index;
       Ok (Some {| response := Some (dumps imp objects);
                   status := status_;
                   response_headers := hdrs;
                   mimetype := MEDIA_TYPE_STIX_V20 imp |})
     else
       Raise (ProcessingError
                ("Collection '" +:+ collection_id
                 +:+ "' has no objects available") 404 None None),
     bp)
  else if String.eqb (method request) "POST" then
    (validate_taxii_version_parameter_in_accept_header imp request;;
     validate_version_parameter_in_content_type_header request;;
     api_root_exists imp app api_root;;
     collection_exists app api_root collection_id;;
     permission_to_write app api_root collection_id;;
     validate_size_in_request_body app request api_root;;
     body ← get_json request;
     status_ ← add_objects (medallion_backend app) api_root collection_id
                 body request_time;
     Ok (Some {| response := Some (dumps imp status_);
                 status := 202;
                 response_headers := ∅;
                 mimetype := MEDIA_TYPE_TAXII_V20 imp |}),
     bp)
  else
    match route (late_setup_raises imp) bp get_or_delete_object_route with
    | Ok bp' => (Ok None, bp')
    | Raise e => (Raise e, bp)
    end.

End Views.

(** ** The application that serves the blueprint

    Modelled from Flask, which is not among the sources: how an application
    registers a blueprint and which requests it hands to the view. *)

(** The application's URL map, and the blueprint the module holds. *)
Record Server := {
  url_map : list Route;
  blueprint : Blueprint
}.

(** [app.register_blueprint(bp)]: the routes recorded so far enter the URL
    map, and the blueprint is marked as registered. *)
Definition register_blueprint (bp : Blueprint) : Server :=
  {| url_map := deferred_routes bp;
     blueprint := {| deferred_routes := deferred_routes bp;
                     got_registered_once := true |} |}.

Definition lists (m : string) (ms : list string) : bool :=
  existsb (String.eqb m) ms.

(** The methods with which a rule calls its view: those it lists, and HEAD
    when it lists GET. *)
Definition view_methods (r : Route) : list string :=
  (methods r
   ++ (if lists "GET" (methods r) && negb (lists "HEAD" (methods r))
       then ["HEAD"] else []))%list.

(** The methods a rule answers: those of the view, and OPTIONS, which
    Flask answers itself. *)
Definition rule_methods (r : Route) : list string :=
  (view_methods r
   ++ (if lists "OPTIONS" (methods r) then [] else ["OPTIONS"]))%list.

(** A request for [path] with method [m] is served when a route of the URL
    map has that rule and answers that method. *)
Definition serves (map : list Route) (path m : string) : bool :=
  existsb (fun r => String.eqb (rule r) path && lists m (rule_methods r)) map.

Section Serving.

Variable imp : Imports.

(** The state after a request to the list rule: the view runs when the
    rule calls it for the method of the request, on the blueprint the module
    holds; nothing but a registration touches the URL map. *)
Definition after_objects_request (sv : Server) (app : App) (request : Request)
    (api_root collection_id : string) : Server :=
  if lists (method request) (view_methods get_or_add_objects_route) then
    {| url_map := url_map sv;
       blueprint :=
         (get_or_add_objects imp app request (blueprint sv) api_root
            collection_id).2 |}
  else sv.

(** The state after a sequence of requests to the list rule, each with the
    application as it is when the request arrives. *)
Fixpoint after_objects_requests (sv : Server)
    (requests : list (App * Request * string * string)) : Server :=
  match requests with
  | [] => sv
  | (app, request, api_root, collection_id) :: rest =>
      after_objects_requests
        (after_objects_request sv app request api_root collection_id) rest
  end.

End Serving.

(** * The vocabulary of the statements *)

(** ** Digits and the form of a Range header *)

Fixpoint all_digits (s : string) : bool :=
  match s with
  | EmptyString => true
  | String c s' => is_digit c && all_digits s'
  end.

Definition starts_with_digit (s : string) : bool :=
  match s with
  | EmptyString => false
  | String c _ => is_digit c
  end.

(** The number a string of digits denotes, read left to right. *)
Fixpoint decimal_from (acc : Z) (s : string) : Z :=
  match s with
  | EmptyString => acc
  | String c s' => decimal_from (acc * 10 + digit_val c) s'
  end.

Definition decimal (s : string) : Z := decimal_from 0 s.

(** What the pattern [^items[= ](\d+)-(\d+)$] accepts, written out: the word
    [items], an equals sign or a space, the digits [a], a dash, the digits
    [b], and possibly one final newline. *)
Definition range_header_form (h a b : string) : Prop :=
  exists sep nl : string,
    (sep = "=" \/ sep = " ")
    /\ (nl = "" \/ nl = String newline "")
    /\ all_digits a = true /\ a <> ""
    /\ all_digits b = true /\ b <> ""
    /\ h = "items" +:+ sep +:+ a +:+ "-" +:+ b +:+ nl.

(** ** Messages and header values, as the code spells them *)

(** ["items {}-{}/{}".format(first, last, total)] *)
Definition content_range (first_ last_ total : Z) : string :=
  "items " +:+ format_int first_ +:+ "-" +:+ format_int last_
  +:+ "/" +:+ format_int total.

(** ["items */{}".format(total)] *)
Definition content_range_unsatisfied (total : Z) : string :=
  "items */" +:+ format_int total.

(** The last index of a page of [n] items that starts at [start]. *)
Definition page_end (start n : Z) : Z :=
  if n =? 0 then start else start + (n - 1).

Definition not_found_message (collection_id : string) : string :=
  "Collection '" +:+ collection_id +:+ "' not found".

Definition forbidden_write_message (collection_id : string) : string :=
  "Forbidden to write collection '" +:+ collection_id +:+ "'".

Definition forbidden_read_message (collection_id : string) : string :=
  "Forbidden to read collection '" +:+ collection_id +:+ "'".

Definition bad_request_message : string :=
  "The server did not understand the request or headers".

Definition too_large_message : string :=
  "Content-Length header not valid or exceeds maximum!".

Definition stix_media_type : string := "application/vnd.oasis.stix+json".

Definition unsupported_version_message (version_str : option string) : string :=
  "The server does not support version " +:+ format_opt version_str.

Definition first_header : string := "X-TAXII-Date-Added-First".

Definition last_header : string := "X-TAXII-Date-Added-Last".


(** ** Outcomes *)

Definition status_of (r : result (Z * gmap string string)) : option Z :=
  match r with
  | Ok (st, _) => Some st
  | Raise _ => None
  end.

(** A check that ends in a value or in a [ProcessingError], that is, in
    something the request boundary turns into an HTTP answer. *)
Definition handled {A} (r : result A) : Prop :=
  match r with
  | Ok _ => True
  | Raise e => is_processing_error e = true
  end.

(** The tokens the loop of the Content-Type validation goes through. *)
Definition content_type_tokens (request : Request) : list string :=
  split_comma (remove_spaces (headers_get_default request "content_type" "")).

(** ** Fixtures: a backend with fixed answers, applications, requests *)

Definition fixed_backend (collection api_root_info : value)
    (manifest : list ManifestEntry) : Backend :=
  {| get_collection := fun _ _ => Ok collection;
     get_api_root_information := fun _ => Ok api_root_info;
     get_objects := fun _ _ _ _ _ _ => Ok (0, VNone);
     add_objects := fun _ _ _ _ => Ok VNone;
     get_object := fun _ _ _ _ _ _ => Ok (VNone, ∅);
     delete_object := fun _ _ _ _ _ => Ok ();
     get_object_manifest := fun _ _ _ _ _ _ => Ok (VNone, manifest) |}.

Definition fixed_app (collection api_root_info : value)
    (manifest : list ManifestEntry) (max_page : Z) : App :=
  {| medallion_backend := fixed_backend collection api_root_info manifest;
     max_page_size := max_page |}.

Definition paging_app (max_page : Z) : App :=
  fixed_app VNone VNone [] max_page.

Definition request_with (m : string) (h : gmap string string) : Request :=
  {| method := m; headers := h; args := []; get_json := Ok VNone |}.

(** A collection record with both capability flags, as the data model has
    it. *)
Definition collection_fields (can_read can_write : bool)
    : list (string * value) :=
  [("id", VStr "c1"); ("can_read", VBool can_read);
   ("can_write", VBool can_write)].

Definition collection_record (can_read can_write : bool) : value :=
  VDict (collection_fields can_read can_write).

Definition app_with_collection (collection : value) : App :=
  fixed_app collection VNone [] 100.

Definition api_root_record (max_content_length : Z) : value :=
  VDict [("title", VStr "root");
         ("max_content_length", VInt max_content_length)].

Definition manifest_entry (d : string) : ManifestEntry :=
  {| object_id := "indicator--1"; date_added := d;
     version := "2016-11-03T12:30:59.000Z";
     media_type := "application/vnd.oasis.stix+json" |}.

Definition app_with_manifest (manifest : list ManifestEntry) : App :=
  fixed_app VNone VNone manifest 100.

(** A bundle of objects, and a backend that lists it for a readable and
    writable collection. *)
Definition bundle_of (objs : list value) : value :=
  VDict [("type", VStr "bundle"); ("objects", VList objs)].

Definition listing_app (total : Z) (objs : list value)
    (manifest : list ManifestEntry) (max_page : Z) : App :=
  {| medallion_backend :=
       {| get_collection := fun _ _ => Ok (collection_record true true);
          get_api_root_information := fun _ => Ok (api_root_record 1000);
          get_objects := fun _ _ _ _ _ _ => Ok (total, bundle_of objs);
          add_objects := fun _ _ _ _ => Ok VNone;
          get_object := fun _ _ _ _ _ _ => Ok (bundle_of objs, ∅);
          delete_object := fun _ _ _ _ _ => Ok ();
          get_object_manifest := fun _ _ _ _ _ _ => Ok (VNone, manifest) |};
     max_page_size := max_page |}.

Definition fixed_imports : Imports :=
  {| MEDIA_TYPE_STIX_V20 := "application/vnd.oasis.stix+json; version=2.0";
     MEDIA_TYPE_TAXII_V20 := "application/vnd.oasis.taxii+json; version=2.0";
     validate_stix_version_parameter_in_accept_header := fun _ => Ok ();
     validate_taxii_version_parameter_in_accept_header := fun _ => Ok ();
     api_root_exists := fun _ _ => Ok ();
     get_timestamp := "2016-11-03T12:30:59.000Z";
     dumps := fun _ => "{}";
     late_setup_raises := false |}.

Definition build_headers_message : string :=
  "Unable to build response headers".

(** An application whose backend fails the manifest query with [e]. *)
Definition failing_manifest_app (e : exn) : App :=
  {| medallion_backend :=
       {| get_collection := fun _ _ => Ok (collection_record true true);
          get_api_root_information := fun _ => Ok (api_root_record 1000);
          get_objects := fun _ _ _ _ _ _ => Ok (1, bundle_of [VStr "a"]);
          add_objects := fun _ _ _ _ => Ok VNone;
          get_object := fun _ _ _ _ _ _ => Ok (VNone, ∅);
          delete_object := fun _ _ _ _ _ => Ok ();
          get_object_manifest := fun _ _ _ _ _ _ => Raise e |};
     max_page_size := 100 |}.

(** Headers that already hold a date header, and the same after the
    manifest dated 2016-11-03 and 2017-01-20 was read. *)
Definition stale_headers : gmap string string :=
  <[first_header := "stale"]> {["Accept-Ranges" := "items"]}.

Definition dated_headers : gmap string string :=
  <[last_header := "2017-01-20"]>
    (<[first_header := "2016-11-03"]> stale_headers).

Definition no_objects_message (collection_id : string) : string :=
  "Collection '" +:+ collection_id +:+ "' has no objects available".

(** The answer of the list view to [Range: items=0-0] when the backend
    lists one object out of five. *)
Definition page_response (imp : Imports) : Response :=
  {| response := Some (dumps imp (bundle_of [VStr "a"]));
     status := 206;
     response_headers :=
       <["Content-Range" := "items 0-0/5"]> {["Accept-Ranges" := "items"]};
     mimetype := MEDIA_TYPE_STIX_V20 imp |}.

Definition object_not_found_message (object_id : string) : string :=
  "Object '" +:+ object_id +:+ "' not found".

(** The answer of the list view to a POST the backend accepted with the
    status [None]. *)
Definition accepted_response (imp : Imports) : Response :=
  {| response := Some (dumps imp VNone);
     status := 202;
     response_headers := ∅;
     mimetype := MEDIA_TYPE_TAXII_V20 imp |}.

(** The answer of the view of a single object when the backend returns a
    bundle of one object and no headers. *)
Definition object_response (imp : Imports) : Response :=
  {| response := Some (dumps imp (bundle_of [VStr "a"]));
     status := 200;
     response_headers := ∅;
     mimetype := MEDIA_TYPE_STIX_V20 imp |}.

Definition request_with_args (m : string) (a : list (string * string))
    : Request :=
  {| method := m; headers := ∅; args := a; get_json := Ok VNone |}.

(** ** Case analysis on the comparisons of a goal *)

Ltac case_bools :=
  repeat (match goal with
          | |- context [(?x <=? ?y)] => destruct (Z.leb_spec x y)
          | |- context [(?x <? ?y)] => destruct (Z.ltb_spec x y)
          | |- context [(?x >? ?y)] => destruct (Z.gtb_spec x y)
          | |- context [(?x =? ?y)] => destruct (Z.eqb_spec x y)
          | |- context [bool_decide _] => case_bool_decide
          end; cbn [andb orb negb]).

(** * Properties *)

(** ** Strings, [int] and the two patterns *)

Lemma strip_prefix_spec p s r :
  strip_prefix p s = Some r <-> s = p +:+ r.
Proof.
  revert s. induction p as [|a p IH]; intros s; simpl.
  - split; congruence.
  - destruct s as [|b s]; [split; discriminate|].
    destruct (Ascii.eqb_spec a b) as [->|Hne].
    + rewrite IH. split; [by intros -> | by intros [= ->]].
    + split; [discriminate | by intros [= ->]].
Qed.

Lemma strip_prefix_app p r : strip_prefix p (p +:+ r) = Some r.
Proof. by apply strip_prefix_spec. Qed.

Lemma span_digits_spec s d r :
  span_digits s = (d, r) ->
  s = d +:+ r /\ all_digits d = true /\ starts_with_digit r = false.
Proof.
  revert d r. induction s as [|c s IH]; intros d r; simpl.
  - intros [= <- <-]. done.
  - destruct (is_digit c) eqn:Hc.
    + destruct (span_digits s) as [d' r'] eqn:Hs. intros [= <- <-].
      destruct (IH _ _ eq_refl) as (-> & Hd & Hr).
      simpl. rewrite Hc, Hd. done.
    + intros [= <- <-]. simpl. by rewrite Hc.
Qed.

Lemma span_digits_app d r :
  all_digits d = true -> starts_with_digit r = false ->
  span_digits (d +:+ r) = (d, r).
Proof.
  induction d as [|c d IH]; simpl; intros Hd Hr.
  - destruct r as [|c r]; [done|]. simpl in *. by rewrite Hr.
  - apply andb_prop in Hd as [Hc Hd]. by rewrite Hc, IH.
Qed.

Lemma at_end_spec s : at_end s = true <-> s = "" \/ s = String newline "".
Proof.
  destruct s as [|c [|c' s]]; simpl.
  - split; auto.
  - destruct (Ascii.eqb_spec c newline) as [->|Hne].
    + split; auto.
    + split; [discriminate | intros [[=] | [=]]; congruence].
  - split; [discriminate | intros [[=] | [=]]].
Qed.

Lemma at_end_no_digit s : at_end s = true -> starts_with_digit s = false.
Proof. intros [->| ->]%at_end_spec; reflexivity. Qed.

(** The matcher accepts exactly the strings of the written-out form, and
    its two groups are the two runs of digits. *)
Lemma re_match_range_spec h m :
  re_match_range h = Some m <->
  exists a b, m = [Some a; Some b] /\ range_header_form h a b.
Proof.
  unfold re_match_range, range_header_form. split.
  - destruct (strip_prefix "items" h) as [[|sep rest]|] eqn:Hp; try discriminate.
    apply strip_prefix_spec in Hp as ->.
    destruct (Ascii.eqb sep "=" || Ascii.eqb sep " ") eqn:Hsep; [|discriminate].
    destruct (span_digits rest) as [g1 rest1] eqn:H1.
    apply span_digits_spec in H1 as (-> & Hg1 & _).
    destruct g1 as [|c1 g1]; [discriminate|].
    destruct rest1 as [|dash rest2]; [discriminate|].
    destruct (Ascii.eqb_spec dash "-") as [->|]; [|discriminate].
    destruct (span_digits rest2) as [g2 rest3] eqn:H2.
    apply span_digits_spec in H2 as (-> & Hg2 & _).
    destruct g2 as [|c2 g2]; [discriminate|].
    destruct (at_end rest3) eqn:He; [|discriminate].
    intros [= <-]. eexists _, _. split; [done|].
    exists (String sep ""), rest3. apply at_end_spec in He.
    apply orb_prop in Hsep.
    repeat split; try done.
    destruct Hsep as [->%Ascii.eqb_eq | ->%Ascii.eqb_eq]; auto.
  - intros (a & b & -> & sep & nl & Hsep & Hnl & Ha & Hna & Hb & Hnb & ->).
    assert (Hend : at_end nl = true) by by apply at_end_spec.
    rewrite strip_prefix_app.
    destruct Hsep as [-> | ->]; simpl;
      (rewrite (span_digits_app a) by done);
      (destruct a as [|ca a]; [done|]);
      simpl; (rewrite (span_digits_app b) by auto using at_end_no_digit);
      (destruct b as [|cb b]; [done|]); by rewrite Hend.
Qed.

Lemma re_match_range_None h :
  re_match_range h = None <-> ~ exists a b, range_header_form h a b.
Proof.
  split.
  - intros Hn (a & b & Hf).
    assert (re_match_range h = Some [Some a; Some b]) as Hs
      by (apply re_match_range_spec; eauto).
    congruence.
  - intros Hn. destruct (re_match_range h) as [m|] eqn:Hm; [|done].
    apply re_match_range_spec in Hm as (a & b & _ & Hf). destruct Hn; eauto.
Qed.

Lemma int_run_all_digits acc digits s :
  all_digits s = true ->
  int_run acc digits s
  = Some (decimal_from acc s, digits + Z.of_nat (String.length s), EmptyString).
Proof.
  revert acc digits. induction s as [|c s IH]; intros acc digits; simpl.
  - intros _. do 3 f_equal. lia.
  - intros [Hc Hs]%andb_prop. rewrite Hc, (IH _ _ Hs). do 3 f_equal. lia.
Qed.

Lemma is_digit_not_space c : is_digit c = true -> is_space c = false.
Proof.
  unfold is_digit, is_space. intros [H1 H2]%andb_prop.
  apply Z.leb_le in H1, H2.
  repeat match goal with
         | |- context [(?x <=? ?y)] => destruct (Z.leb_spec x y)
         | |- context [(?x =? ?y)] => destruct (Z.eqb_spec x y)
         end; simpl; try reflexivity; lia.
Qed.

Lemma is_digit_not_sign c :
  is_digit c = true -> Ascii.eqb c "+" = false /\ Ascii.eqb c "-" = false.
Proof.
  intros Hc. split; apply Ascii.eqb_neq; intros ->; discriminate.
Qed.

(** [int] of a non-empty run of digits: the number it denotes when the run
    is within the limit of the interpreter, a [ValueError] when it is
    longer. *)
Lemma int_of_str_all_digits s :
  all_digits s = true -> s <> "" ->
  int_of_str s =
    if int_max_str_digits <? Z.of_nat (String.length s)
    then Raise exceeds_digit_limit else Ok (decimal s).
Proof.
  destruct s as [|c s]; [done|]. intros [Hc Hs]%andb_prop _.
  unfold int_of_str. cbn [lstrip]. rewrite (is_digit_not_space c Hc).
  destruct (is_digit_not_sign c Hc) as [-> ->].
  unfold int_unsigned. rewrite Hc, (int_run_all_digits _ _ _ Hs).
  replace (1 + Z.of_nat (String.length s))
    with (Z.of_nat (String.length (String c s)))
    by (cbn [String.length]; lia).
  destruct (_ <? _); reflexivity.
Qed.

Lemma int_of_str_digits s :
  all_digits s = true -> s <> "" ->
  Z.of_nat (String.length s) <= int_max_str_digits ->
  int_of_str s = Ok (decimal s).
Proof.
  intros Hd Hne Hlen. rewrite (int_of_str_all_digits s Hd Hne).
  destruct (Z.ltb_spec int_max_str_digits (Z.of_nat (String.length s)));
    [lia | reflexivity].
Qed.

Lemma int_of_str_digits_over_limit s :
  all_digits s = true ->
  int_max_str_digits < Z.of_nat (String.length s) ->
  int_of_str s = Raise exceeds_digit_limit.
Proof.
  intros Hd Hlen.
  assert (Hne : s <> "") by (intros ->; unfold int_max_str_digits in Hlen;
                             simpl in Hlen; lia).
  rewrite (int_of_str_all_digits s Hd Hne).
  destruct (Z.ltb_spec int_max_str_digits (Z.of_nat (String.length s)));
    [reflexivity | lia].
Qed.

(** Whatever [int] raises is a [ValueError]. *)
Lemma int_of_str_raises s e : int_of_str s = Raise e -> is_ValueError e = true.
Proof.
  unfold int_of_str.
  destruct (match lstrip s with
            | EmptyString => _ | String c r => _ end) as [neg s2].
  unfold int_unsigned.
  destruct s2 as [|c s']; simpl; [by intros [= <-]|].
  destruct (is_digit c); simpl; [|by intros [= <-]].
  destruct (int_run (digit_val c) 1 s') as [[[n digits] rest]|]; simpl;
    [|by intros [= <-]].
  destruct (_ <? _); simpl; [by intros [= <-]|].
  destruct (all_space rest); simpl; [discriminate | by intros [= <-]].
Qed.

Lemma decimal_from_nonneg acc s :
  0 <= acc -> all_digits s = true -> 0 <= decimal_from acc s.
Proof.
  revert acc. induction s as [|c s IH]; intros acc Hacc; simpl; [done|].
  intros [Hc Hs]%andb_prop. apply IH; [|done].
  unfold is_digit in Hc. apply andb_prop in Hc as [H1 _].
  apply Z.leb_le in H1. unfold digit_val. lia.
Qed.

Lemma decimal_nonneg s : all_digits s = true -> 0 <= decimal s.
Proof. by apply decimal_from_nonneg. Qed.

(** ** Range requests *)

Lemma get_range_request_absent app request :
  headers_get request "Range" = None ->
  get_range_request_from_headers app request = Ok (0, max_page_size app - 1).
Proof. unfold get_range_request_from_headers. by intros ->. Qed.

Lemma get_range_request_matched app request h a b :
  headers_get request "Range" = Some h ->
  range_header_form h a b ->
  Z.of_nat (String.length a) <= int_max_str_digits ->
  Z.of_nat (String.length b) <= int_max_str_digits ->
  get_range_request_from_headers app request =
    Ok (decimal a,
        if decimal b - decimal a + 1 >? max_page_size app
        then decimal a + (max_page_size app - 1) else decimal b).
Proof.
  intros Hh Hf Hla Hlb. unfold get_range_request_from_headers. rewrite Hh.
  assert (re_match_range h = Some [Some a; Some b]) as ->
    by (apply re_match_range_spec; eauto).
  destruct Hf as (sep & nl & _ & _ & Ha & Hna & Hb & Hnb & _).
  simpl. rewrite (int_of_str_digits a), (int_of_str_digits b) by done.
  simpl. by destruct (_ >? _).
Qed.

(** A header of the right form one of whose numbers has more digits than
    [int] converts: the [ValueError] of [int] is caught like a failed match. *)
Lemma get_range_request_over_limit app request h a b :
  headers_get request "Range" = Some h ->
  range_header_form h a b ->
  int_max_str_digits < Z.of_nat (String.length a)
  \/ int_max_str_digits < Z.of_nat (String.length b) ->
  get_range_request_from_headers app request =
    Raise (ProcessingError "Bad Range header supplied" 400 None
             (Some exceeds_digit_limit)).
Proof.
  intros Hh Hf Hover. unfold get_range_request_from_headers. rewrite Hh.
  assert (re_match_range h = Some [Some a; Some b]) as ->
    by (apply re_match_range_spec; eauto).
  destruct Hf as (sep & nl & _ & _ & Ha & Hna & Hb & Hnb & _).
  cbn [group_of group lookup list_lookup pred mbind result_bind int_of_group].
  destruct (Z.ltb_spec int_max_str_digits (Z.of_nat (String.length a)))
    as [Hla|Hla].
  - by rewrite (int_of_str_digits_over_limit a Ha Hla).
  - rewrite (int_of_str_digits a Ha Hna Hla). cbn [mbind result_bind].
    destruct Hover as [?|Hlb]; [lia|].
    by rewrite (int_of_str_digits_over_limit b Hb Hlb).
Qed.

(** The two cases together. *)
Lemma get_range_request_of_form app request h a b :
  headers_get request "Range" = Some h ->
  range_header_form h a b ->
  get_range_request_from_headers app request =
    if (Z.of_nat (String.length a) <=? int_max_str_digits)
       && (Z.of_nat (String.length b) <=? int_max_str_digits)
    then Ok (decimal a,
             if decimal b - decimal a + 1 >? max_page_size app
             then decimal a + (max_page_size app - 1) else decimal b)
    else Raise (ProcessingError "Bad Range header supplied" 400 None
                  (Some exceeds_digit_limit)).
Proof.
  intros Hh Hf.
  destruct (Z.leb_spec (Z.of_nat (String.length a)) int_max_str_digits);
    destruct (Z.leb_spec (Z.of_nat (String.length b)) int_max_str_digits);
    cbn [andb];
    first [ by apply (get_range_request_matched _ _ h)
          | apply (get_range_request_over_limit _ _ h a b Hh Hf); auto ].
Qed.

Lemma get_range_request_unmatched app request h :
  headers_get request "Range" = Some h ->
  re_match_range h = None ->
  get_range_request_from_headers app request =
    Raise (ProcessingError "Bad Range header supplied" 400 None
             (Some (AttributeError "'NoneType' object has no attribute 'group'"))).
Proof.
  intros Hh Hm. unfold get_range_request_from_headers. by rewrite Hh, Hm.
Qed.

(** C7. Range-header parsing: without a Range header the parser returns
    [(0, max_page_size - 1)]; a header that does not match
    [items[= ](\d+)-(\d+)] fails with HTTP 400; a header that matches, its
    two numbers within the number of digits [int] converts, gives the start
    it names and the end it names, the end cut back to
    [start + max_page_size - 1] without an error when the span is larger
    than [max_page_size]. In particular ["items=5-9"] with a page size of 3
    gives [(5, 7)]. (A matching header one of whose numbers is longer than
    that fails with the same 400.) *)
Theorem range_header_parsing app request :
  (headers_get request "Range" = None ->
   get_range_request_from_headers app request = Ok (0, max_page_size app - 1))
  /\ (forall h, headers_get request "Range" = Some h ->
        (~ exists a b, range_header_form h a b) ->
        exists cause,
          get_range_request_from_headers app request =
            Raise (ProcessingError "Bad Range header supplied" 400 None
                     (Some cause)))
  /\ (forall h a b, headers_get request "Range" = Some h ->
        range_header_form h a b ->
        Z.of_nat (String.length a) <= int_max_str_digits ->
        Z.of_nat (String.length b) <= int_max_str_digits ->
        get_range_request_from_headers app request =
          Ok (decimal a,
              if decimal b - decimal a + 1 >? max_page_size app
              then decimal a + (max_page_size app - 1) else decimal b))
  /\ (forall h a b, headers_get request "Range" = Some h ->
        range_header_form h a b ->
        int_max_str_digits < Z.of_nat (String.length a)
        \/ int_max_str_digits < Z.of_nat (String.length b) ->
        exists cause,
          get_range_request_from_headers app request =
            Raise (ProcessingError "Bad Range header supplied" 400 None
                     (Some cause)))
  /\ (headers_get request "Range" = Some "items=5-9" ->
      max_page_size app = 3 ->
      get_range_request_from_headers app request = Ok (5, 7)).
Proof.
  split; [apply get_range_request_absent|].
  split; [|split; [|split]].
  - intros h Hh Hn. eexists.
    apply (get_range_request_unmatched app request h Hh).
    by apply re_match_range_None.
  - intros h a b. apply get_range_request_matched.
  - intros h a b Hh Hf Hover. eexists.
    apply (get_range_request_over_limit app request h a b Hh Hf Hover).
  - intros Hh Hmax.
    rewrite (get_range_request_matched app request "items=5-9" "5" "9" Hh).
    + rewrite Hmax. reflexivity.
    + exists "=", "". repeat split; auto; discriminate.
    + unfold int_max_str_digits. simpl. lia.
    + unfold int_max_str_digits. simpl. lia.
Qed.

Lemma range_header_parsing_witness :
  get_range_request_from_headers (paging_app 3)
    (request_with "GET" {["Range" := "items=5-9"]}) = Ok (5, 7).
Proof.
  pose proof (range_header_parsing (paging_app 3)
                (request_with "GET" {["Range" := "items=5-9"]}))
    as (_ & _ & _ & _ & Hexample).
  apply Hexample; reflexivity.
Defined.

(** C3, as the code has it. For every Range header accepted without error,
    and for the default when there is none, the returned pair spans at most
    [max_page_size] items and its start is not negative. The end is not
    below the start exactly when [max_page_size] is at least 1 and the
    header, if there is one, names an end that is not below its start: the
    parser does not compare the two numbers of the header. *)
Theorem range_request_span_bounded app request s e :
  get_range_request_from_headers app request = Ok (s, e) ->
  e - s + 1 <= max_page_size app
  /\ 0 <= s
  /\ (s <= e <->
      1 <= max_page_size app
      /\ forall h a b, headers_get request "Range" = Some h ->
           range_header_form h a b -> decimal a <= decimal b).
Proof.
  destruct (headers_get request "Range") as [h|] eqn:Hh.
  - destruct (re_match_range h) as [m|] eqn:Hm.
    + apply re_match_range_spec in Hm as (a & b & -> & Hf).
      rewrite (get_range_request_of_form _ _ _ _ _ Hh Hf).
      destruct (_ && _); [|discriminate].
      assert (Huniq : forall h' a' b', Some h = Some h' ->
                range_header_form h' a' b' -> a' = a /\ b' = b).
      { intros h' a' b' [= <-] Hf'.
        assert (re_match_range h = Some [Some a; Some b]) as H1
          by (apply re_match_range_spec; eauto).
        assert (re_match_range h = Some [Some a'; Some b']) as H2
          by (apply re_match_range_spec; eauto).
        rewrite H1 in H2. by injection H2 as -> ->. }
      assert (Ha : 0 <= decimal a).
      { destruct Hf as (_ & _ & _ & _ & Hda & _). by apply decimal_nonneg. }
      destruct (Z.gtb_spec (decimal b - decimal a + 1) (max_page_size app));
        intros [= <- <-]; (split; [lia|]); (split; [done|]); split.
      * intros ?. split; [lia|]. intros h' a' b' Hh' Hf'.
        destruct (Huniq _ _ _ Hh' Hf') as [-> ->]. lia.
      * intros [? Hab]. lia.
      * intros ?. split; [lia|]. intros h' a' b' Hh' Hf'.
        destruct (Huniq _ _ _ Hh' Hf') as [-> ->]. lia.
      * intros [? Hab]. by apply (Hab h a b).
    + by rewrite (get_range_request_unmatched _ _ _ Hh Hm).
  - rewrite (get_range_request_absent _ _ Hh). intros [= <- <-].
    split; [lia|]. split; [done|]. split.
    + intros ?. split; [lia|]. intros ??? [=].
    + intros [? _]. lia.
Qed.

Lemma range_request_span_bounded_witness :
  9 - 5 + 1 <= max_page_size (paging_app 10)
  /\ 0 <= 5
  /\ (5 <= 9 <->
      1 <= max_page_size (paging_app 10)
      /\ forall h a b,
           headers_get (request_with "GET" {["Range" := "items 5-9"]}) "Range"
             = Some h ->
           range_header_form h a b -> decimal a <= decimal b).
Proof.
  apply (range_request_span_bounded (paging_app 10)
           (request_with "GET" {["Range" := "items 5-9"]}) 5 9).
  reflexivity.
Defined.

(** C3, as the specification states it, fails: the header ["items=9-5"] is
    accepted and returned as the pair [(9, 5)], whose end is below its
    start. *)
Lemma range_request_reversed_counterexample :
  get_range_request_from_headers (paging_app 3)
    (request_with "GET" {["Range" := "items=9-5"]}) = Ok (9, 5)
  /\ ~ (forall app request s e,
          get_range_request_from_headers app request = Ok (s, e) ->
          s <= e /\ e - s + 1 <= max_page_size app).
Proof.
  assert (Hrun : get_range_request_from_headers (paging_app 3)
                   (request_with "GET" {["Range" := "items=9-5"]}) = Ok (9, 5))
    by reflexivity.
  split; [exact Hrun|].
  intros Hall. destruct (Hall _ _ _ _ Hrun) as [Hle _]. lia.
Qed.

(** ** Status and headers of a page *)

(** C4. When the start lies inside the result set, or the result set is
    empty: without a Range header and with fewer results than
    [max_page_size] the answer is 200 with exactly [Accept-Ranges: items];
    otherwise it is 206 with [Content-Range: items start-end/total], where
    the end is [start + (count - 1)], or [start] for an empty page, [count]
    being [len(objects)]. Two calls that differ only in whether a Range
    header was sent get 200 and 206. *)
Theorem page_status_and_headers app request start_index total_count
    (objects : value) (returned_count : Z) :
  start_index < total_count \/ total_count = 0 ->
  len objects = Ok returned_count ->
  (headers_get request "Range" = None /\ total_count < max_page_size app ->
   get_response_status_and_headers app request start_index total_count
     objects = Ok (200, {["Accept-Ranges" := "items"]})
   /\ ({["Accept-Ranges" := "items"]} : gmap string string) !! "Content-Range"
      = None)
  /\ (headers_get request "Range" <> None \/ max_page_size app <= total_count ->
      get_response_status_and_headers app request start_index total_count
        objects =
        Ok (206,
            <["Content-Range" :=
                content_range start_index
                  (page_end start_index returned_count) total_count]>
              {["Accept-Ranges" := "items"]}))
  /\ (total_count < max_page_size app ->
      forall request', headers_get request "Range" = None ->
        headers_get request' "Range" <> None ->
        status_of (get_response_status_and_headers app request start_index
                     total_count objects) = Some 200
        /\ status_of (get_response_status_and_headers app request' start_index
                        total_count objects) = Some 206).
Proof.
  intros Hin Hlen.
  unfold get_response_status_and_headers, page_end, content_range.
  rewrite Hlen. cbn [mbind result_bind].
  split; [|split].
  - intros [-> Hlt]. split; [|reflexivity].
    case_bools; first [reflexivity | lia | congruence].
  - intros Hor.
    case_bools; first [reflexivity | lia | destruct Hor; [congruence | lia]].
  - intros Hlt request' -> Hsome.
    split; case_bools; first [reflexivity | lia | congruence].
Qed.

Lemma page_status_and_headers_witness :
  status_of (get_response_status_and_headers (paging_app 100)
               (request_with "GET" ∅) 0 2 (VList [VNone; VNone])) = Some 200
  /\ status_of (get_response_status_and_headers (paging_app 100)
                  (request_with "GET" {["Range" := "items=0-1"]}) 0 2
                  (VList [VNone; VNone])) = Some 206.
Proof.
  pose proof (page_status_and_headers (paging_app 100)
                (request_with "GET" ∅) 0 2 (VList [VNone; VNone]) 2) as H.
  destruct H as (_ & _ & Hboth); [left; lia | reflexivity |].
  apply Hboth; [simpl; lia | reflexivity | discriminate].
Defined.

Example page_of_one_out_of_five :
  get_response_status_and_headers (paging_app 100)
    (request_with "GET" {["Range" := "items=0-0"]}) 0 5 (VList [VNone])
  = Ok (206, <["Content-Range" := "items 0-0/5"]> {["Accept-Ranges" := "items"]}).
Proof. reflexivity. Qed.

Example empty_page_ends_at_its_start :
  get_response_status_and_headers (paging_app 100)
    (request_with "GET" {["Range" := "items=3-9"]}) 3 0 (VList [])
  = Ok (206, <["Content-Range" := "items 3-3/0"]> {["Accept-Ranges" := "items"]}).
Proof. reflexivity. Qed.

(** C5. The function raises an error of status 416 exactly when
    [start_index >= total_count > 0]; that error carries exactly the headers
    [Accept-Ranges: items] and [Content-Range: items */total]; on every
    other input it returns a status and headers ([objects] being something
    [len] applies to, as the list the view passes is). *)
Theorem unsatisfiable_range app request start_index total_count
    (objects : value) :
  ((exists e,
      get_response_status_and_headers app request start_index total_count
        objects = Raise e /\ http_status e = Some 416)
   <-> total_count <= start_index /\ 0 < total_count)
  /\ (total_count <= start_index /\ 0 < total_count ->
      exists e,
        get_response_status_and_headers app request start_index total_count
          objects = Raise e
        /\ http_status e = Some 416
        /\ error_headers e =
             Some (<["Content-Range" := content_range_unsatisfied total_count]>
                     {["Accept-Ranges" := "items"]}))
  /\ (~ (total_count <= start_index /\ 0 < total_count) ->
      forall n, len objects = Ok n ->
        exists st hdrs,
          get_response_status_and_headers app request start_index total_count
            objects = Ok (st, hdrs)).
Proof.
  unfold get_response_status_and_headers, content_range_unsatisfied.
  split; [split|split].
  - intros (e & He & H416). revert He.
    case_bools; try lia; try discriminate;
      (destruct (len objects) as [n|e'] eqn:Hlen; cbn [mbind result_bind];
       [discriminate|]);
      intros [= <-];
      destruct objects; simpl in Hlen; try discriminate;
      injection Hlen as <-; discriminate.
  - intros [H1 H2]. case_bools; try lia. eexists; split; reflexivity.
  - intros [H1 H2]. case_bools; try lia. eexists; repeat split; reflexivity.
  - intros Hn n ->. cbn [mbind result_bind].
    case_bools; try lia; eexists _, _; reflexivity.
Qed.

Lemma unsatisfiable_range_witness :
  exists e,
    get_response_status_and_headers (paging_app 10) (request_with "GET" ∅)
      7 5 (VList []) = Raise e
    /\ http_status e = Some 416
    /\ error_headers e =
         Some (<["Content-Range" := "items */5"]> {["Accept-Ranges" := "items"]}).
Proof.
  pose proof (unsatisfiable_range (paging_app 10) (request_with "GET" ∅)
                7 5 (VList [])) as (_ & Hraise & _).
  apply Hraise. lia.
Defined.

(** ** Permissions *)

(** C6. For an existing collection whose two flags are booleans: when both
    are false the combined check fails with 404; when only writing is
    denied it fails with 403 for writing, when only reading is denied with
    403 for reading; it passes when both are allowed. A 403 therefore
    always comes with at least one flag true. *)
Theorem read_and_write_joint_check_first app api_root collection_id kv
    (can_read can_write : bool) :
  get_collection (medallion_backend app) api_root collection_id
    = Ok (VDict kv) ->
  assoc "can_read" kv = Some (VBool can_read) ->
  assoc "can_write" kv = Some (VBool can_write) ->
  permission_to_read_and_write app api_root collection_id =
    (if negb can_read && negb can_write then
       Raise (ProcessingError (not_found_message collection_id) 404 None None)
     else if negb can_write then
       Raise (ProcessingError (forbidden_write_message collection_id) 403
                None None)
     else if negb can_read then
       Raise (ProcessingError (forbidden_read_message collection_id) 403
                None None)
     else Ok ())
  /\ (can_read = false -> can_write = false ->
      forall e, permission_to_read_and_write app api_root collection_id
                  = Raise e -> http_status e = Some 404)
  /\ (forall e, permission_to_read_and_write app api_root collection_id
                  = Raise e ->
        http_status e = Some 403 -> can_read = true \/ can_write = true).
Proof.
  intros Hc Hr Hw.
  assert (Hrun : permission_to_read_and_write app api_root collection_id =
    (if negb can_read && negb can_write then
       Raise (ProcessingError (not_found_message collection_id) 404 None None)
     else if negb can_write then
       Raise (ProcessingError (forbidden_write_message collection_id) 403
                None None)
     else if negb can_read then
       Raise (ProcessingError (forbidden_read_message collection_id) 403
                None None)
     else Ok ())).
  { unfold permission_to_read_and_write. rewrite Hc. simpl.
    rewrite Hr, Hw. by destruct can_read, can_write. }
  split; [exact Hrun|]. rewrite Hrun. split.
  - intros -> -> e [= <-]. reflexivity.
  - destruct can_read, can_write; simpl; intros e [= <-]; auto; discriminate.
Qed.

Lemma read_and_write_joint_check_first_witness :
  permission_to_read_and_write
    (app_with_collection (collection_record false false)) "root" "c1"
  = Raise (ProcessingError (not_found_message "c1") 404 None None).
Proof.
  apply (read_and_write_joint_check_first
           (app_with_collection (collection_record false false)) "root" "c1"
           (collection_fields false false) false false);
    reflexivity.
Defined.

Lemma subscript_falsy v key :
  truthy v = false ->
  exists e, subscript v key = Raise e /\ is_processing_error e = false.
Proof.
  destruct v as [| | | | |[|p kv]]; simpl; try discriminate; eauto.
Qed.

Lemma subscript_Ok v key x :
  subscript v key = Ok x <-> exists kv, v = VDict kv /\ assoc key kv = Some x.
Proof.
  split.
  - destruct v; simpl; try discriminate.
    destruct (assoc key kv) eqn:Ha; [|discriminate]. intros [= <-]. eauto.
  - intros (kv & -> & Ha). simpl. by rewrite Ha.
Qed.

Lemma subscript_raises v key e :
  subscript v key = Raise e -> is_processing_error e = false.
Proof.
  destruct v; simpl; try (by intros [= <-]).
  destruct (assoc key kv); [discriminate | by intros [= <-]].
Qed.

Lemma permission_to_read_handled app api_root collection_id v :
  get_collection (medallion_backend app) api_root collection_id = Ok v ->
  handled (permission_to_read app api_root collection_id) <->
  exists kv flag, v = VDict kv /\ assoc "can_read" kv = Some flag.
Proof.
  intros Hc. unfold permission_to_read. rewrite Hc. simpl.
  destruct (subscript v "can_read") as [flag|e] eqn:Hs; simpl.
  - apply subscript_Ok in Hs as (kv & -> & Ha).
    split; [eauto|]. intros _. by destruct (is_False flag).
  - pose proof (subscript_raises _ _ _ Hs) as He. rewrite He.
    split; [discriminate|]. intros (kv & flag & -> & Ha).
    simpl in Hs. by rewrite Ha in Hs.
Qed.

Lemma permission_to_write_handled app api_root collection_id v :
  get_collection (medallion_backend app) api_root collection_id = Ok v ->
  handled (permission_to_write app api_root collection_id) <->
  exists kv flag, v = VDict kv /\ assoc "can_write" kv = Some flag.
Proof.
  intros Hc. unfold permission_to_write. rewrite Hc. simpl.
  destruct (subscript v "can_write") as [flag|e] eqn:Hs; simpl.
  - apply subscript_Ok in Hs as (kv & -> & Ha).
    split; [eauto|]. intros _. by destruct (is_False flag).
  - pose proof (subscript_raises _ _ _ Hs) as He. rewrite He.
    split; [discriminate|]. intros (kv & flag & -> & Ha).
    simpl in Hs. by rewrite Ha in Hs.
Qed.

(** C10. [permission_to_read] and [permission_to_write] end in a value or
    in a [ProcessingError] exactly when [get_collection] gives a record
    that holds the flag. When it gives [None] they end in a [TypeError]
    from subscripting it, and so does the GET branch of
    [get_or_delete_object], which calls [permission_to_read] first: for a
    collection that does not exist no 403 or 404 is produced. *)
Theorem permission_checks_need_collection_record imp app request api_root
    collection_id object_id v :
  get_collection (medallion_backend app) api_root collection_id = Ok v ->
  (handled (permission_to_read app api_root collection_id) <->
   exists kv flag, v = VDict kv /\ assoc "can_read" kv = Some flag)
  /\ (handled (permission_to_write app api_root collection_id) <->
      exists kv flag, v = VDict kv /\ assoc "can_write" kv = Some flag)
  /\ (v = VNone ->
      (exists msg, permission_to_read app api_root collection_id
                     = Raise (TypeError msg))
      /\ (exists msg, permission_to_write app api_root collection_id
                        = Raise (TypeError msg))
      /\ (method request = "GET" ->
          exists msg, get_or_delete_object imp app request api_root
                        collection_id object_id = Raise (TypeError msg)))
  /\ (truthy v = false ->
      ~ handled (permission_to_read app api_root collection_id)
      /\ ~ handled (permission_to_write app api_root collection_id)
      /\ (method request = "GET" ->
          ~ handled (get_or_delete_object imp app request api_root
                       collection_id object_id))).
Proof.
  intros Hc.
  split; [by apply permission_to_read_handled|].
  split; [by apply permission_to_write_handled|].
  split.
  - intros ->.
    unfold get_or_delete_object, permission_to_read, permission_to_write.
    rewrite Hc. simpl. split; [eauto|]. split; [eauto|].
    intros ->. simpl. eauto.
  - intros Hf.
    destruct (subscript_falsy v "can_read" Hf) as (e1 & H1 & He1).
    destruct (subscript_falsy v "can_write" Hf) as (e2 & H2 & He2).
    unfold get_or_delete_object, permission_to_read, permission_to_write.
    rewrite Hc. simpl. rewrite H1, H2. simpl. rewrite He1, He2.
    split; [discriminate|]. split; [discriminate|].
    intros ->. simpl. rewrite He1. discriminate.
Qed.

Lemma permission_checks_need_collection_record_witness :
  exists msg,
    get_or_delete_object fixed_imports (app_with_collection VNone)
      (request_with "GET" ∅) "root" "c1" "o1" = Raise (TypeError msg).
Proof.
  pose proof (permission_checks_need_collection_record fixed_imports
                (app_with_collection VNone) (request_with "GET" ∅)
                "root" "c1" "o1" VNone eq_refl) as (_ & _ & Hnone & _).
  destruct (Hnone eq_refl) as (_ & _ & Hget). apply Hget. reflexivity.
Defined.

(** ** Size of the request body *)

(** C9. With an api-root whose [max_content_length] is the integer
    [max_length]: a Content-Length header that is absent, or that [int]
    does not accept, fails with 400; one that reads as [n] with [n <= 0] or
    [n > max_length] fails with 413; one with [0 < n <= max_length]
    passes. *)
Theorem content_length_validation app request api_root info max_length :
  get_api_root_information (medallion_backend app) api_root = Ok info ->
  subscript info "max_content_length" = Ok (VInt max_length) ->
  (headers_get request "content_length" = None ->
   validate_size_in_request_body app request api_root =
     Raise (ProcessingError bad_request_message 400 None None))
  /\ (forall s e, headers_get request "content_length" = Some s ->
        int_of_str s = Raise e ->
        validate_size_in_request_body app request api_root =
          Raise (ProcessingError bad_request_message 400 None None))
  /\ (forall s n, headers_get request "content_length" = Some s ->
        int_of_str s = Ok n ->
        n <= 0 \/ max_length < n ->
        validate_size_in_request_body app request api_root =
          Raise (ProcessingError too_large_message 413 None None))
  /\ (forall s n, headers_get request "content_length" = Some s ->
        int_of_str s = Ok n ->
        0 < n <= max_length ->
        validate_size_in_request_body app request api_root = Ok ()).
Proof.
  intros Hinfo Hmax.
  unfold validate_size_in_request_body, headers_get_default, headers_get.
  rewrite Hinfo. simpl. rewrite Hmax. simpl.
  split; [|split; [|split]].
  - intros ->. reflexivity.
  - intros s e -> He. simpl. rewrite He. simpl.
    by rewrite (int_of_str_raises _ _ He).
  - intros s n -> Hn Hrange. simpl. rewrite Hn. simpl.
    case_bools; first [reflexivity | lia].
  - intros s n -> Hn Hrange. simpl. rewrite Hn. simpl.
    case_bools; first [reflexivity | lia].
Qed.

Lemma content_length_validation_witness :
  validate_size_in_request_body (fixed_app VNone (api_root_record 1000) [] 100)
    (request_with "POST" {["content_length" := "1001"]}) "root"
  = Raise (ProcessingError too_large_message 413 None None).
Proof.
  pose proof (content_length_validation
                (fixed_app VNone (api_root_record 1000) [] 100)
                (request_with "POST" {["content_length" := "1001"]}) "root"
                (api_root_record 1000) 1000 eq_refl eq_refl)
    as (_ & _ & Hlarge & _).
  apply (Hlarge "1001" 1001); [reflexivity | reflexivity | lia].
Defined.

(** ** The Content-Type header *)

(** A match object of the media-type pattern always has two groups, so the
    test [len(result.groups()) >= 2] never fails; the second group is [None]
    when the token has no version. *)
Lemma re_match_stix_groups item m :
  re_match_stix item = Some m ->
  length m = 2%nat
  /\ (group m 2 = None <-> item = stix_media_type
                           \/ item = stix_media_type +:+ String newline "").
Proof.
  unfold re_match_stix, stix_media_type.
  destruct (strip_prefix _ item) as [rest|] eqn:Hp; [|discriminate].
  apply strip_prefix_spec in Hp as ->.
  destruct (strip_prefix ";version=" rest) as [ver|] eqn:Hv.
  - apply strip_prefix_spec in Hv as ->.
    destruct ver as [|d1 [|dot [|d2 tl]]]; try discriminate.
    destruct (_ && _); [|discriminate]. intros [= <-].
    split; [reflexivity|]. split; [discriminate|].
    intros [H|H]; symmetry in H; apply strip_prefix_spec in H;
      simpl in H; discriminate.
  - destruct (at_end rest) eqn:He; [|discriminate]. intros [= <-].
    split; [reflexivity|]. split; [|reflexivity]. intros _.
    apply at_end_spec in He as [-> | ->]; auto.
Qed.



(** Whatever the validation raises is a [ProcessingError] of status 415. *)
Lemma content_type_rejected_415 request e :
  validate_version_parameter_in_content_type_header request = Raise e ->
  http_status e = Some 415.
Proof.
  unfold validate_version_parameter_in_content_type_header.
  fold (content_type_tokens request).
  assert (Hloop : forall tokens e', content_type_loop tokens = Raise e' ->
                    http_status e' = Some 415).
  { induction tokens as [|t tokens IH]; intros e'; simpl; [discriminate|].
    destruct (re_match_stix t) as [m|] eqn:Hm; [|apply IH].
    destruct (re_match_stix_groups _ _ Hm) as [-> _]. simpl.
    case_bool_decide; simpl; [discriminate | by intros [= <-]]. }
  destruct (content_type_loop _) as [[|]|e'] eqn:Hl; simpl.
  - discriminate.
  - by intros [= <-].
  - intros [= <-]. by apply Hloop in Hl.
Qed.

Lemma content_type_loop_skip before tokens :
  Forall (fun t => re_match_stix t = None) before ->
  content_type_loop (before ++ tokens)%list = content_type_loop tokens.
Proof.
  induction 1 as [|t before Ht _ IH]; simpl; [done|]. by rewrite Ht.
Qed.

(** C1, on the code. A Content-Type whose first token that matches the
    pattern is the bare media type [application/vnd.oasis.stix+json] is
    refused with 415: the pattern matches, [len(result.groups()) >= 2] holds
    although the version group took no part, [result.group(2)] is [None],
    and [None != "2.0"]. *)
Theorem content_type_without_version_refused request before after :
  content_type_tokens request = (before ++ stix_media_type :: after)%list ->
  Forall (fun t => re_match_stix t = None) before ->
  validate_version_parameter_in_content_type_header request =
    Raise (ProcessingError (unsupported_version_message None) 415 None None).
Proof.
  intros Htokens Hbefore.
  unfold validate_version_parameter_in_content_type_header.
  fold (content_type_tokens request).
  rewrite Htokens, (content_type_loop_skip _ _ Hbefore). reflexivity.
Qed.

Lemma content_type_without_version_refused_witness :
  validate_version_parameter_in_content_type_header
    (request_with "POST"
       {["content_type" := "text/plain, application/vnd.oasis.stix+json"]}) =
    Raise (ProcessingError "The server does not support version None" 415
             None None).
Proof.
  apply (content_type_without_version_refused
           (request_with "POST"
              {["content_type" := "text/plain, application/vnd.oasis.stix+json"]})
           ["text/plain"] []).
  - reflexivity.
  - repeat constructor.
Defined.

Example content_type_bare_refused :
  validate_version_parameter_in_content_type_header
    (request_with "POST" {["content_type" := "application/vnd.oasis.stix+json"]})
  = Raise (ProcessingError "The server does not support version None" 415
             None None).
Proof. reflexivity. Qed.

Example content_type_version_20_accepted :
  validate_version_parameter_in_content_type_header
    (request_with "POST"
       {["content_type" := "application/vnd.oasis.stix+json; version=2.0"]})
  = Ok ().
Proof. reflexivity. Qed.

Example content_type_version_21_refused :
  validate_version_parameter_in_content_type_header
    (request_with "POST"
       {["content_type" := "application/vnd.oasis.stix+json; version=2.1"]})
  = Raise (ProcessingError "The server does not support version 2.1" 415
             None None).
Proof. reflexivity. Qed.

Example content_type_missing_refused :
  validate_version_parameter_in_content_type_header (request_with "POST" ∅)
  = Raise (ProcessingError
             "Media type in the Content-Type header is invalid or not found"
             415 None None).
Proof. reflexivity. Qed.

(** ** The date-added headers *)

Lemma ltb_true_le y x : String.ltb y x = true -> String.le y x.
Proof.
  unfold String.le, String.leb, String.ltb.
  by destruct (String.compare y x).
Qed.

Lemma ltb_false_le y x : String.ltb y x = false -> String.le x y.
Proof.
  unfold String.le, String.leb, String.ltb.
  rewrite (String.compare_antisym x y).
  by destruct (String.compare y x).
Qed.

Lemma insert_sorted_perm x l : insert_sorted x l ≡ₚ x :: l.
Proof.
  induction l as [|y l IH]; simpl; [done|].
  destruct (String.ltb y x); [|done].
  rewrite IH. apply perm_swap.
Qed.

Lemma sorted_perm l : sorted l ≡ₚ l.
Proof.
  induction l as [|x l IH]; simpl; [done|].
  by rewrite insert_sorted_perm, IH.
Qed.

Lemma insert_sorted_Sorted x l :
  Sorted String.le l -> Sorted String.le (insert_sorted x l).
Proof.
  induction 1 as [|y l Hl IH Hhd]; simpl.
  - repeat constructor.
  - destruct (String.ltb y x) eqn:Hyx.
    + constructor; [done|].
      destruct Hhd as [|z l Hyz]; simpl.
      * constructor. by apply ltb_true_le.
      * destruct (String.ltb z x); constructor; [done|by apply ltb_true_le].
    + constructor; [by constructor|]. constructor. by apply ltb_false_le.
Qed.

Lemma sorted_Sorted l : Sorted String.le (sorted l).
Proof.
  induction l as [|x l IH]; simpl; [constructor|].
  by apply insert_sorted_Sorted.
Qed.

(** [sorted] depends on the elements only, not on their order. *)
Lemma sorted_permutation l1 l2 : l1 ≡ₚ l2 -> sorted l1 = sorted l2.
Proof.
  intros Hp. apply (Sorted_unique String.le); [apply sorted_Sorted..|].
  by rewrite !sorted_perm.
Qed.

Lemma StronglySorted_head_least l x :
  StronglySorted String.le l -> head l = Some x ->
  forall y, y ∈ l -> String.le x y.
Proof.
  destruct 1 as [|z l Hl Hall]; simpl; [discriminate|].
  intros [= ->] y [->|Hy]%elem_of_cons; [done|].
  by apply (proj1 (Forall_forall _ _) Hall).
Qed.

Lemma StronglySorted_last_greatest l x :
  StronglySorted String.le l -> last l = Some x ->
  forall y, y ∈ l -> String.le y x.
Proof.
  induction 1 as [|z l Hl IH Hall]; simpl; [discriminate|].
  destruct l as [|z' l'].
  - intros [= ->] y [->|Hy]%elem_of_cons; [done|]. by apply elem_of_nil in Hy.
  - intros Hlast y [->|Hy]%elem_of_cons; [|by apply IH].
    transitivity z'.
    + apply (proj1 (Forall_forall _ _) Hall). by left.
    + apply IH; [done|by left].
Qed.

(** The least and the greatest element of a non-empty list are the ends
    of its sorted copy. *)
Lemma sorted_ends d ds :
  exists lo hi,
    head (sorted (d :: ds)) = Some lo /\ last (sorted (d :: ds)) = Some hi
    /\ lo ∈ d :: ds /\ hi ∈ d :: ds
    /\ forall y, y ∈ d :: ds -> String.le lo y /\ String.le y hi.
Proof.
  pose proof (sorted_perm (d :: ds)) as Hp.
  pose proof (Sorted_StronglySorted _ _ (sorted_Sorted (d :: ds))) as Hs.
  destruct (sorted (d :: ds)) as [|lo times] eqn:Ht.
  { by apply Permutation_nil_cons in Hp. }
  assert (is_Some (last (lo :: times))) as [hi Hhi].
  { apply last_is_Some. discriminate. }
  exists lo, hi. split; [done|]. split; [done|].
  split; [rewrite <- Hp; by left|].
  split; [rewrite <- Hp; by eapply last_Some_elem_of|].
  intros y Hy. rewrite <- Hp in Hy. split.
  - by apply (StronglySorted_head_least (lo :: times)).
  - by apply (StronglySorted_last_greatest (lo :: times)).
Qed.

Lemma get_custom_headers_run app request hdrs api_root collection_id
    start end_ x manifest :
  get_object_manifest (medallion_backend app) api_root collection_id
    (args request) ["id"] start end_ = Ok (x, manifest) ->
  get_custom_headers app request hdrs api_root collection_id start end_ =
    match head (sorted (map date_added manifest)),
          last (sorted (map date_added manifest)) with
    | Some lo, Some hi => Ok (<[last_header := hi]> (<[first_header := lo]> hdrs))
    | _, _ => Ok hdrs
    end.
Proof.
  intros Hm. unfold get_custom_headers. rewrite Hm.
  cbn [mbind result_bind snd].
  destruct manifest as [|m manifest]; [reflexivity|].
  destruct (sorted_ends (date_added m) (map date_added manifest))
    as (lo & hi & Hlo & Hhi & _).
  change (map date_added (m :: manifest))
    with (date_added m :: map date_added manifest).
  rewrite Hlo, Hhi.
  destruct (sorted (date_added m :: map date_added manifest)) as [|t times];
    [discriminate|reflexivity].
Qed.

(** C8. When the manifest is empty the headers come back unchanged. When
    it is not, [X-TAXII-Date-Added-First] is set to the least and
    [X-TAXII-Date-Added-Last] to the greatest [date_added] of its entries.
    A manifest with the same entries in another order gives the same
    headers. *)
Theorem date_added_headers app request hdrs api_root collection_id start end_
    x manifest :
  get_object_manifest (medallion_backend app) api_root collection_id
    (args request) ["id"] start end_ = Ok (x, manifest) ->
  (manifest = [] ->
   get_custom_headers app request hdrs api_root collection_id start end_
     = Ok hdrs)
  /\ (manifest <> [] ->
      exists lo hi,
        get_custom_headers app request hdrs api_root collection_id start end_
          = Ok (<[last_header := hi]> (<[first_header := lo]> hdrs))
        /\ lo ∈ map date_added manifest /\ hi ∈ map date_added manifest
        /\ forall d, d ∈ map date_added manifest ->
             String.le lo d /\ String.le d hi)
  /\ (forall app' x' manifest',
        get_object_manifest (medallion_backend app') api_root collection_id
          (args request) ["id"] start end_ = Ok (x', manifest') ->
        manifest ≡ₚ manifest' ->
        get_custom_headers app' request hdrs api_root collection_id start end_
        = get_custom_headers app request hdrs api_root collection_id start end_).
Proof.
  intros Hm. rewrite (get_custom_headers_run _ _ _ _ _ _ _ _ _ Hm).
  split; [by intros ->|]. split.
  - destruct manifest as [|m manifest]; [done|]. intros _.
    destruct (sorted_ends (date_added m) (map date_added manifest))
      as (lo & hi & Hlo & Hhi & Hin).
    exists lo, hi. simpl map. by rewrite Hlo, Hhi.
  - intros app' x' manifest' Hm' Hp.
    rewrite (get_custom_headers_run _ _ _ _ _ _ _ _ _ Hm').
    by rewrite (sorted_permutation (map date_added manifest)
                  (map date_added manifest')) by by apply Permutation_map.
Qed.

Lemma date_added_headers_witness :
  get_custom_headers
    (app_with_manifest [manifest_entry "2016-12-27"; manifest_entry "2016-11-03";
                        manifest_entry "2017-01-20"])
    (request_with "GET" ∅) {["Accept-Ranges" := "items"]} "root" "c1" 0 2
  = get_custom_headers
      (app_with_manifest [manifest_entry "2016-11-03"; manifest_entry "2016-12-27";
                          manifest_entry "2017-01-20"])
      (request_with "GET" ∅) {["Accept-Ranges" := "items"]} "root" "c1" 0 2.
Proof.
  pose proof (date_added_headers
                (app_with_manifest [manifest_entry "2016-11-03";
                                    manifest_entry "2016-12-27";
                                    manifest_entry "2017-01-20"])
                (request_with "GET" ∅) {["Accept-Ranges" := "items"]}
                "root" "c1" 0 2 VNone _ eq_refl) as (_ & _ & Hperm).
  apply (Hperm
           (app_with_manifest [manifest_entry "2016-12-27";
                               manifest_entry "2016-11-03";
                               manifest_entry "2017-01-20"])
           VNone _ eq_refl).
  apply perm_swap.
Defined.

Example date_added_headers_example :
  get_custom_headers
    (app_with_manifest [manifest_entry "2016-12-27"; manifest_entry "2016-11-03";
                        manifest_entry "2017-01-20"])
    (request_with "GET" ∅) {["Accept-Ranges" := "items"]} "root" "c1" 0 2
  = Ok (<[last_header := "2017-01-20"]>
          (<[first_header := "2016-11-03"]> {["Accept-Ranges" := "items"]})).
Proof. reflexivity. Qed.

(** ** Routes *)

Lemma bind_never_None {A} (c : result A) (k : A -> result (option Response)) :
  (forall a, k a <> Ok None) -> c ≫= k <> Ok None.
Proof. intros Hk. destruct c as [a|e]; simpl; [apply Hk | discriminate]. Qed.

(** The URL map an application gets from the blueprint holds the list
    route only: no method is served on the path of a single object. *)
Lemma objects_bp_at_import m :
  serves (url_map (register_blueprint objects_bp)) object_rule m = false.
Proof. reflexivity. Qed.

(** With a method that is neither GET nor POST the body runs past both
    branches, defines [get_or_delete_object] and applies its decorator: it
    ends without a response, or with the exception of the decorator. *)
Lemma get_or_add_objects_falls_through imp app request bp api_root
    collection_id :
  method request <> "GET" -> method request <> "POST" ->
  get_or_add_objects imp app request bp api_root collection_id
  = match route (late_setup_raises imp) bp get_or_delete_object_route with
    | Ok bp' => (Ok None, bp')
    | Raise e => (Raise e, bp)
    end.
Proof.
  intros Hg Hp. unfold get_or_add_objects.
  apply String.eqb_neq in Hg, Hp. by rewrite Hg, Hp.
Qed.

Lemma get_or_add_objects_keeps_blueprint imp app request bp api_root
    collection_id :
  In (method request) (methods get_or_add_objects_route) ->
  (get_or_add_objects imp app request bp api_root collection_id).2 = bp.
Proof.
  intros Hm. unfold get_or_add_objects.
  destruct Hm as [<- | [<- | []]]; reflexivity.
Qed.

(** The view never takes back that the blueprint is registered. *)
Lemma get_or_add_objects_stays_registered imp app request bp api_root
    collection_id :
  got_registered_once bp = true ->
  got_registered_once
    (get_or_add_objects imp app request bp api_root collection_id).2 = true.
Proof.
  intros Hreg. unfold get_or_add_objects.
  destruct (String.eqb (method request) "GET"); [done|].
  destruct (String.eqb (method request) "POST"); [done|].
  unfold route. rewrite Hreg.
  by destruct (late_setup_raises imp).
Qed.

Lemma after_objects_request_invariant imp sv app request api_root
    collection_id :
  got_registered_once (blueprint sv) = true ->
  url_map (after_objects_request imp sv app request api_root collection_id)
  = url_map sv
  /\ got_registered_once
       (blueprint (after_objects_request imp sv app request api_root
                     collection_id)) = true.
Proof.
  intros Hreg. unfold after_objects_request.
  destruct (lists (method request) (view_methods get_or_add_objects_route));
    [|done].
  split; [reflexivity|]. by apply get_or_add_objects_stays_registered.
Qed.

Lemma after_objects_requests_invariant imp requests sv :
  got_registered_once (blueprint sv) = true ->
  url_map (after_objects_requests imp sv requests) = url_map sv
  /\ got_registered_once (blueprint (after_objects_requests imp sv requests))
     = true.
Proof.
  revert sv.
  induction requests as [|[[[app request] api_root] collection_id] rest IH];
    intros sv Hreg; simpl; [done|].
  destruct (after_objects_request_invariant imp sv app request api_root
              collection_id Hreg) as [Hmap Hreg'].
  destruct (IH _ Hreg') as [Hmap' Hreg'']. split; [congruence | done].
Qed.

(** C2, on the code. The path of a single object is never served: the URL
    map the application takes from the blueprint holds the list route only,
    and no sequence of requests to the list view, whatever their methods,
    changes it. With GET and POST the view ends in a response or an
    exception and leaves the blueprint as it was: the statements that
    define [get_or_delete_object] and register its route are not reached.
    With any other method the rule hands to the view, which is HEAD, they
    are reached, on a blueprint that is registered already: the call ends
    without a response or in the exception of the decorator, and the route
    goes, if anywhere, to the blueprint and not to the URL map. *)
Theorem single_object_route_not_registered imp :
  (forall requests m,
     serves
       (url_map (after_objects_requests imp (register_blueprint objects_bp)
                   requests))
       object_rule m = false)
  /\ view_methods get_or_add_objects_route = ["GET"; "POST"; "HEAD"]
  /\ (forall app request bp api_root collection_id,
        In (method request) ["GET"; "POST"] ->
        (get_or_add_objects imp app request bp api_root collection_id).2 = bp
        /\ (get_or_add_objects imp app request bp api_root collection_id).1
           <> Ok None)
  /\ (forall app request bp api_root collection_id,
        method request = "HEAD" ->
        got_registered_once bp = true ->
        (forall r,
           (get_or_add_objects imp app request bp api_root collection_id).1
           <> Ok (Some r))
        /\ (late_setup_raises imp = true ->
            (get_or_add_objects imp app request bp api_root collection_id).2
            = bp
            /\ exists msg,
                 (get_or_add_objects imp app request bp api_root
                    collection_id).1 = Raise (OtherException msg))
        /\ (late_setup_raises imp = false ->
            get_or_add_objects imp app request bp api_root collection_id
            = (Ok None, record_route bp get_or_delete_object_route))).
Proof.
  split; [|split; [reflexivity|split]].
  - intros requests m.
    destruct (after_objects_requests_invariant imp requests
                (register_blueprint objects_bp) eq_refl) as [-> _].
    apply objects_bp_at_import.
  - intros app request bp api_root collection_id Hm.
    split; [by apply get_or_add_objects_keeps_blueprint|].
    unfold get_or_add_objects.
    destruct Hm as [<- | [<- | []]]; cbn [String.eqb Ascii.eqb Bool.eqb fst].
    + do 4 (apply bind_never_None; intros _).
      apply bind_never_None; intros [start_index end_index].
      apply bind_never_None; intros [total_count objects].
      destruct (truthy objects); [|discriminate].
      apply bind_never_None; intros objs.
      apply bind_never_None; intros [status_ hdrs].
      apply bind_never_None; intros hdrs'. discriminate.
    + do 6 (apply bind_never_None; intros _).
      apply bind_never_None; intros body.
      apply bind_never_None; intros status_. discriminate.
  - intros app request bp api_root collection_id Hm Hreg.
    rewrite get_or_add_objects_falls_through by (rewrite Hm; discriminate).
    unfold route. rewrite Hreg. cbn [andb].
    destruct (late_setup_raises imp); cbn [fst snd].
    + split; [discriminate|]. split; [|discriminate].
      intros _. split; [reflexivity|]. eauto.
    + split; [discriminate|]. split; [discriminate|]. reflexivity.
Qed.

Lemma single_object_route_not_registered_witness :
  serves
    (url_map
       (after_objects_requests fixed_imports (register_blueprint objects_bp)
          [(app_with_collection (collection_record true true),
            request_with "HEAD" ∅, "root", "c1");
           (app_with_collection (collection_record true true),
            request_with "GET" ∅, "root", "c1")]))
    object_rule "GET" = false.
Proof.
  pose proof (single_object_route_not_registered fixed_imports)
    as [Hnever _].
  apply Hnever.
Defined.

(** A HEAD request to the list view does reach the registration: the
    blueprint then holds the route of a single object, and the URL map
    still does not. *)
Example head_request_records_route :
  deferred_routes
    (blueprint
       (after_objects_request fixed_imports (register_blueprint objects_bp)
          (app_with_collection (collection_record true true))
          (request_with "HEAD" ∅) "root" "c1"))
  = [get_or_add_objects_route; get_or_delete_object_route]
  /\ url_map
       (after_objects_request fixed_imports (register_blueprint objects_bp)
          (app_with_collection (collection_record true true))
          (request_with "HEAD" ∅) "root" "c1")
     = [get_or_add_objects_route].
Proof. split; reflexivity. Qed.

(** ** The list view, end to end *)

(** No Range header, two objects out of two, a page size of 100: a full
    answer, 200, with [Accept-Ranges] and the two date headers. *)
Example list_get_full :
  get_or_add_objects fixed_imports
    (listing_app 2 [VStr "a"; VStr "b"]
       [manifest_entry "2016-12-27"; manifest_entry "2016-11-03"] 100)
    (request_with "GET" ∅) objects_bp "root" "c1"
  = (Ok (Some {| response := Some "{}";
                 status := 200;
                 response_headers :=
                   <[last_header := "2016-12-27"]>
                     (<[first_header := "2016-11-03"]>
                        {["Accept-Ranges" := "items"]});
                 mimetype := MEDIA_TYPE_STIX_V20 fixed_imports |}),
     objects_bp).
Proof. reflexivity. Qed.

(** Range ["items=0-0"], one object out of five: a partial answer, 206,
    with [Content-Range: items 0-0/5]. *)
Example list_get_partial :
  get_or_add_objects fixed_imports
    (listing_app 5 [VStr "a"] [] 100)
    (request_with "GET" {["Range" := "items=0-0"]}) objects_bp "root" "c1"
  = (Ok (Some {| response := Some "{}";
                 status := 206;
                 response_headers :=
                   <["Content-Range" := "items 0-0/5"]>
                     {["Accept-Ranges" := "items"]};
                 mimetype := MEDIA_TYPE_STIX_V20 fixed_imports |}),
     objects_bp).
Proof. reflexivity. Qed.

(** A POST with the bare media type as Content-Type stops at 415 before
    anything is asked of the backend. *)
Example list_post_bare_content_type :
  get_or_add_objects fixed_imports
    (listing_app 0 [] [] 100)
    (request_with "POST"
       {["content_type" := "application/vnd.oasis.stix+json";
         "content_length" := "12"]})
    objects_bp "root" "c1"
  = (Raise (ProcessingError "The server does not support version None" 415
              None None),
     objects_bp).
Proof. reflexivity. Qed.

(** * Further properties of the helpers and of the views *)

(** ** Inversion of a sequence of steps *)

Lemma bind_Ok_inv {A B} (c : result A) (k : A -> result B) b :
  c ≫= k = Ok b -> exists a, c = Ok a /\ k a = Ok b.
Proof. destruct c as [a|e]; simpl; [eauto | discriminate]. Qed.

Lemma bind_Raise_l {A B} (c : result A) (k : A -> result B) e :
  c = Raise e -> c ≫= k = Raise e.
Proof. by intros ->. Qed.

Lemma bind_Ok_l {A B} (c : result A) (k : A -> result B) a :
  c = Ok a -> c ≫= k = k a.
Proof. by intros ->. Qed.

(** ** The limit parameter *)

(** X1. A limit that [validate_limit_parameter] returns is at most
    [max_page_size], and at least 1 when [max_page_size] is: it is
    [max_page_size] when the query has no [limit], and otherwise the number
    given, cut back to [max_page_size]. *)
Theorem limit_within_bounds app request l :
  validate_limit_parameter app request = Ok l ->
  l <= max_page_size app
  /\ (1 <= max_page_size app -> 1 <= l)
  /\ (assoc "limit" (args request) = None -> l = max_page_size app)
  /\ (forall s n, assoc "limit" (args request) = Some s ->
        int_of_str s = Ok n -> l = Z.min n (max_page_size app)).
Proof.
  unfold validate_limit_parameter.
  destruct (assoc "limit" (args request)) as [s|] eqn:Harg.
  - destruct (int_of_str s) as [n|e] eqn:Hn; simpl.
    + case_bools; try discriminate; intros [= <-];
        (split; [lia|]); (split; [lia|]); (split; [discriminate|]);
        intros s' n' [= <-]; rewrite Hn; intros [= <-]; lia.
    + destruct (is_ValueError e); discriminate.
  - simpl. case_bools; try discriminate; intros [= <-];
      (split; [lia|]); (split; [lia|]); (split; [done|]); intros ?? [=].
Qed.

Lemma limit_within_bounds_witness :
  100 <= max_page_size (paging_app 100)
  /\ (1 <= max_page_size (paging_app 100) -> 1 <= 100)
  /\ (assoc "limit" (args (request_with_args "GET" [("limit", "250")])) = None ->
      100 = max_page_size (paging_app 100))
  /\ (forall s n,
        assoc "limit" (args (request_with_args "GET" [("limit", "250")]))
          = Some s ->
        int_of_str s = Ok n -> 100 = Z.min n (max_page_size (paging_app 100))).
Proof.
  apply (limit_within_bounds (paging_app 100)
           (request_with_args "GET" [("limit", "250")]) 100).
  reflexivity.
Defined.

(** X2. Whatever [validate_limit_parameter] raises is a [ProcessingError]
    of status 400, and it raises in three cases only: the [limit] given is
    not an integer, it is an integer that is zero or negative, or there is
    none and the configured [max_page_size], which then stands in for it, is
    itself zero or negative. *)
Theorem limit_failures_are_400 app request e :
  validate_limit_parameter app request = Raise e ->
  http_status e = Some 400
  /\ ((exists s e', assoc "limit" (args request) = Some s
                    /\ int_of_str s = Raise e')
      \/ (exists s n, assoc "limit" (args request) = Some s
                      /\ int_of_str s = Ok n /\ n <= 0)
      \/ (assoc "limit" (args request) = None /\ max_page_size app <= 0)).
Proof.
  unfold validate_limit_parameter.
  destruct (assoc "limit" (args request)) as [s|] eqn:Harg.
  - destruct (int_of_str s) as [n|e'] eqn:Hn; simpl.
    + case_bools; try discriminate. intros [= <-].
      split; [reflexivity|]. right; left. eauto.
    + rewrite (int_of_str_raises _ _ Hn). intros [= <-].
      split; [reflexivity|]. left. eauto.
  - simpl. case_bools; try discriminate. intros [= <-].
    split; [reflexivity|]. right; right. done.
Qed.

Lemma limit_failures_are_400_witness :
  http_status (ProcessingError "The limit parameter cannot be negative or zero"
                 400 None None) = Some 400
  /\ ((exists s e', assoc "limit" (args (request_with_args "GET" [("limit", "0")]))
                      = Some s /\ int_of_str s = Raise e')
      \/ (exists s n, assoc "limit" (args (request_with_args "GET" [("limit", "0")]))
                        = Some s /\ int_of_str s = Ok n /\ n <= 0)
      \/ (assoc "limit" (args (request_with_args "GET" [("limit", "0")])) = None
          /\ max_page_size (paging_app 100) <= 0)).
Proof.
  apply (limit_failures_are_400 (paging_app 100)
           (request_with_args "GET" [("limit", "0")])).
  reflexivity.
Defined.

(** ** The date-added headers: failures and the other headers *)

Lemma get_custom_headers_backend_error app request hdrs api_root
    collection_id start end_ cause :
  get_object_manifest (medallion_backend app) api_root collection_id
    (args request) ["id"] start end_ = Raise cause ->
  get_custom_headers app request hdrs api_root collection_id start end_ =
    Raise (ProcessingError build_headers_message 400 None (Some cause)).
Proof. intros Hm. unfold get_custom_headers. by rewrite Hm. Qed.

Lemma get_custom_headers_Ok_inv app request hdrs api_root collection_id
    start end_ hdrs' :
  get_custom_headers app request hdrs api_root collection_id start end_
    = Ok hdrs' ->
  hdrs' = hdrs
  \/ exists lo hi, hdrs' = <[last_header := hi]> (<[first_header := lo]> hdrs)
                   /\ String.le lo hi.
Proof.
  destruct (get_object_manifest (medallion_backend app) api_root collection_id
              (args request) ["id"] start end_) as [[x manifest]|cause] eqn:Hm.
  - rewrite (get_custom_headers_run _ _ _ _ _ _ _ _ _ Hm).
    destruct (map date_added manifest) as [|d ds];
      [simpl; intros [= <-]; by left|].
    destruct (sorted_ends d ds) as (lo & hi & -> & -> & _ & Hhi & Hle).
    intros [= <-]. right. exists lo, hi. split; [done|].
    by apply (Hle hi).
  - by rewrite (get_custom_headers_backend_error _ _ _ _ _ _ _ _ Hm).
Qed.

Lemma get_custom_headers_other_keys app request hdrs api_root collection_id
    start end_ hdrs' k :
  get_custom_headers app request hdrs api_root collection_id start end_
    = Ok hdrs' ->
  k <> first_header -> k <> last_header -> hdrs' !! k = hdrs !! k.
Proof.
  intros [-> | (lo & hi & -> & _)]%get_custom_headers_Ok_inv Hf Hl; [done|].
  by rewrite !lookup_insert_ne.
Qed.

(** X3. An exception of the backend's manifest query comes out of
    [get_custom_headers] as a [ProcessingError] of status 400 that carries
    it as its cause, also when it is itself a [ProcessingError] of another
    status; and whatever [get_custom_headers] raises is that 400 with a
    cause, never an error of another status or kind. *)
Theorem custom_headers_failures_wrapped app request hdrs api_root
    collection_id start end_ :
  (forall cause,
     get_object_manifest (medallion_backend app) api_root collection_id
       (args request) ["id"] start end_ = Raise cause ->
     get_custom_headers app request hdrs api_root collection_id start end_ =
       Raise (ProcessingError build_headers_message 400 None (Some cause)))
  /\ (forall e,
        get_custom_headers app request hdrs api_root collection_id start end_
          = Raise e ->
        exists cause,
          e = ProcessingError build_headers_message 400 None (Some cause)).
Proof.
  split; [apply get_custom_headers_backend_error|].
  intros e. unfold get_custom_headers.
  destruct (_ ≫= _) as [h|cause]; simpl; [discriminate|].
  intros [= <-]. eauto.
Qed.

Lemma custom_headers_failures_wrapped_witness :
  get_custom_headers
    (failing_manifest_app (ProcessingError "no such collection" 404 None None))
    (request_with "GET" ∅) ∅ "root" "c1" 0 9
  = Raise (ProcessingError build_headers_message 400 None
             (Some (ProcessingError "no such collection" 404 None None))).
Proof.
  pose proof (custom_headers_failures_wrapped
                (failing_manifest_app
                   (ProcessingError "no such collection" 404 None None))
                (request_with "GET" ∅) ∅ "root" "c1" 0 9) as [Hwrap _].
  apply Hwrap. reflexivity.
Defined.

(** X4. When [get_custom_headers] succeeds, every header other than
    [X-TAXII-Date-Added-First] and [X-TAXII-Date-Added-Last] is as it was
    passed in. The two date headers are either both left as they were, or
    both set, the first to a value that is not above the last; values they
    had before are overwritten. *)
Theorem custom_headers_frame app request hdrs api_root collection_id
    start end_ hdrs' :
  get_custom_headers app request hdrs api_root collection_id start end_
    = Ok hdrs' ->
  (forall k, k <> first_header -> k <> last_header -> hdrs' !! k = hdrs !! k)
  /\ ((hdrs' !! first_header = hdrs !! first_header
       /\ hdrs' !! last_header = hdrs !! last_header)
      \/ exists lo hi,
           hdrs' !! first_header = Some lo /\ hdrs' !! last_header = Some hi
           /\ String.le lo hi).
Proof.
  intros Hok. split.
  - intros k. apply (get_custom_headers_other_keys _ _ _ _ _ _ _ _ k Hok).
  - apply get_custom_headers_Ok_inv in Hok as [-> | (lo & hi & -> & Hle)].
    + by left.
    + right. exists lo, hi.
      rewrite lookup_insert_ne by done. by rewrite !lookup_insert_eq.
Qed.

Lemma custom_headers_frame_witness :
  dated_headers !! "Accept-Ranges" = stale_headers !! "Accept-Ranges".
Proof.
  pose proof (custom_headers_frame
                (app_with_manifest [manifest_entry "2017-01-20";
                                    manifest_entry "2016-11-03"])
                (request_with "GET" ∅) stale_headers "root" "c1" 0 9
                dated_headers eq_refl) as [Hframe _].
  apply Hframe; discriminate.
Defined.

(** ** The Content-Type header: what is accepted *)





(** ** The permission checks on a collection record *)

Lemma is_False_spec flag : is_False flag = true <-> flag = VBool false.
Proof.
  destruct flag as [|[|]| | | |]; simpl; split; congruence.
Qed.

(** X6. On a collection record, reading is refused with 403 exactly when
    [can_read] is the boolean [False]; any other value of the flag, [None]
    and 0 among them, lets the check pass. The same holds for writing and
    [can_write]. *)
Theorem permission_flag_identity app api_root collection_id kv :
  get_collection (medallion_backend app) api_root collection_id
    = Ok (VDict kv) ->
  (forall flag, assoc "can_read" kv = Some flag ->
     (flag = VBool false ->
      permission_to_read app api_root collection_id =
        Raise (ProcessingError (forbidden_read_message collection_id) 403
                 None None))
     /\ (flag <> VBool false ->
         permission_to_read app api_root collection_id = Ok ()))
  /\ (forall flag, assoc "can_write" kv = Some flag ->
        (flag = VBool false ->
         permission_to_write app api_root collection_id =
           Raise (ProcessingError (forbidden_write_message collection_id) 403
                    None None))
        /\ (flag <> VBool false ->
            permission_to_write app api_root collection_id = Ok ())).
Proof.
  intros Hc. unfold permission_to_read, permission_to_write.
  rewrite Hc. simpl.
  split; intros flag ->; simpl; (split; [by intros ->|]); intros Hne;
    destruct (is_False flag) eqn:Hf; try reflexivity;
    by apply is_False_spec in Hf.
Qed.

Lemma permission_flag_identity_witness :
  permission_to_read
    (app_with_collection (VDict [("can_read", VNone); ("can_write", VInt 0)]))
    "root" "c1" = Ok ().
Proof.
  pose proof (permission_flag_identity
                (app_with_collection
                   (VDict [("can_read", VNone); ("can_write", VInt 0)]))
                "root" "c1" [("can_read", VNone); ("can_write", VInt 0)]
                eq_refl) as [Hread _].
  destruct (Hread VNone eq_refl) as [_ Hpass]. apply Hpass. discriminate.
Defined.

(** X7. On a collection record that holds both flags, the combined check
    agrees with the two single ones: it passes exactly when both
    [permission_to_read] and [permission_to_write] pass, it answers 404
    exactly when both refuse, and it raises nothing but 403 and 404. *)
Theorem read_and_write_agrees_with_single_checks app api_root collection_id
    kv can_read can_write :
  get_collection (medallion_backend app) api_root collection_id
    = Ok (VDict kv) ->
  assoc "can_read" kv = Some can_read ->
  assoc "can_write" kv = Some can_write ->
  (permission_to_read_and_write app api_root collection_id = Ok () <->
   permission_to_read app api_root collection_id = Ok ()
   /\ permission_to_write app api_root collection_id = Ok ())
  /\ ((exists e, permission_to_read_and_write app api_root collection_id
                   = Raise e /\ http_status e = Some 404) <->
      permission_to_read app api_root collection_id <> Ok ()
      /\ permission_to_write app api_root collection_id <> Ok ())
  /\ (forall e, permission_to_read_and_write app api_root collection_id
                  = Raise e ->
        http_status e = Some 403 \/ http_status e = Some 404).
Proof.
  intros Hc Hr Hw.
  unfold permission_to_read_and_write, permission_to_read, permission_to_write.
  rewrite Hc. simpl. rewrite Hr, Hw. simpl.
  destruct (is_False can_read), (is_False can_write); simpl;
    (split; [|split]).
  all: try (split; [discriminate | intros [? ?]; discriminate]).
  all: try (split; [done | done]).
  all: try (intros e [= <-]; simpl; auto).
  all: try discriminate.
  - split; [intros _; split; discriminate | intros _; eexists; split; reflexivity].
  - split; [intros (e & [= <-] & [=]) | intros [_ H]; by destruct H].
  - split; [intros (e & [= <-] & [=]) | intros [H _]; by destruct H].
  - split; [intros (e & [=] & _) | intros [H _]; by destruct H].
Qed.

Lemma read_and_write_agrees_with_single_checks_witness :
  permission_to_read_and_write
    (app_with_collection (collection_record true true)) "root" "c1" = Ok ().
Proof.
  pose proof (read_and_write_agrees_with_single_checks
                (app_with_collection (collection_record true true))
                "root" "c1" (collection_fields true true)
                (VBool true) (VBool true) eq_refl eq_refl eq_refl)
    as [Hpass _].
  apply Hpass. split; reflexivity.
Defined.

(** ** The size check: failures and the api-root record *)

(** X8. With an api-root whose [max_content_length] is an integer, the size
    check raises nothing but a [ProcessingError] of status 400 or 413. A
    Content-Length made of digits only, and of no more digits than [int]
    converts, never gets the 400: it passes when the number is positive and
    at most [max_content_length], and gets 413 otherwise. One of more
    digits than that gets the 400, like a value that is no number. *)
Theorem size_check_failures app request api_root info max_length :
  get_api_root_information (medallion_backend app) api_root = Ok info ->
  subscript info "max_content_length" = Ok (VInt max_length) ->
  (forall e, validate_size_in_request_body app request api_root = Raise e ->
     is_processing_error e = true
     /\ (http_status e = Some 400 \/ http_status e = Some 413))
  /\ (forall d, headers_get request "content_length" = Some d ->
        all_digits d = true -> d <> "" ->
        Z.of_nat (String.length d) <= int_max_str_digits ->
        validate_size_in_request_body app request api_root =
          if (0 <? decimal d) && (decimal d <=? max_length) then Ok ()
          else Raise (ProcessingError too_large_message 413 None None))
  /\ (forall d, headers_get request "content_length" = Some d ->
        all_digits d = true ->
        int_max_str_digits < Z.of_nat (String.length d) ->
        validate_size_in_request_body app request api_root =
          Raise (ProcessingError bad_request_message 400 None None)).
Proof.
  intros Hinfo Hmax.
  unfold validate_size_in_request_body, headers_get_default, headers_get.
  rewrite Hinfo. simpl. rewrite Hmax. simpl. split; [|split].
  - intros e.
    destruct (int_of_str (default "" (headers request !! "content_length")))
      as [n|e'] eqn:Hn; simpl.
    + case_bools; try discriminate; intros [= <-]; simpl; auto.
    + rewrite (int_of_str_raises _ _ Hn). intros [= <-]. simpl. auto.
  - intros d -> Hd Hne Hlen. simpl.
    rewrite (int_of_str_digits d Hd Hne Hlen). simpl.
    case_bools; first [reflexivity | lia].
  - intros d -> Hd Hlen. simpl.
    by rewrite (int_of_str_digits_over_limit d Hd Hlen).
Qed.

Lemma size_check_failures_witness :
  validate_size_in_request_body (fixed_app VNone (api_root_record 1000) [] 100)
    (request_with "POST" {["content_length" := "0000"]}) "root"
  = Raise (ProcessingError too_large_message 413 None None).
Proof.
  pose proof (size_check_failures
                (fixed_app VNone (api_root_record 1000) [] 100)
                (request_with "POST" {["content_length" := "0000"]}) "root"
                (api_root_record 1000) 1000 eq_refl eq_refl)
    as (_ & Hdigits & _).
  apply (Hdigits "0000"); [reflexivity | reflexivity | discriminate |].
  unfold int_max_str_digits. simpl. lia.
Defined.

(** X9. The size check reads [max_content_length] off the api-root record
    before it looks at the request: when the backend knows no such api-root
    and answers [None], it ends in a [TypeError], and when the record has no
    [max_content_length], in a [KeyError], whatever the Content-Length
    header says; neither is a [ProcessingError]. *)
Theorem size_check_needs_api_root_record app request api_root :
  (get_api_root_information (medallion_backend app) api_root = Ok VNone ->
   exists msg, validate_size_in_request_body app request api_root
               = Raise (TypeError msg))
  /\ (forall kv,
        get_api_root_information (medallion_backend app) api_root
          = Ok (VDict kv) ->
        assoc "max_content_length" kv = None ->
        validate_size_in_request_body app request api_root
        = Raise (KeyError "max_content_length")).
Proof.
  unfold validate_size_in_request_body. split.
  - intros ->. simpl. eauto.
  - intros kv -> Hkey. simpl. by rewrite Hkey.
Qed.

Lemma size_check_needs_api_root_record_witness :
  exists msg,
    validate_size_in_request_body (fixed_app VNone VNone [] 100)
      (request_with "POST" {["content_length" := "12"]}) "root"
    = Raise (TypeError msg).
Proof.
  pose proof (size_check_needs_api_root_record (fixed_app VNone VNone [] 100)
                (request_with "POST" {["content_length" := "12"]}) "root")
    as [Hnone _].
  apply Hnone. reflexivity.
Defined.

(** ** The list view on GET *)

Lemma truthy_dict_with_key (kv : list (string * value)) k x :
  assoc k kv = Some x -> truthy (VDict kv) = true.
Proof. by destruct kv. Qed.

Lemma collection_exists_passes app api_root collection_id v :
  get_collection (medallion_backend app) api_root collection_id = Ok v ->
  truthy v = true -> collection_exists app api_root collection_id = Ok ().
Proof. intros Hc Ht. unfold collection_exists. by rewrite Hc; simpl; rewrite Ht. Qed.

Lemma collection_exists_refuses app api_root collection_id v :
  get_collection (medallion_backend app) api_root collection_id = Ok v ->
  truthy v = false ->
  collection_exists app api_root collection_id =
    Raise (ProcessingError (not_found_message collection_id) 404 None None).
Proof. intros Hc Ht. unfold collection_exists. by rewrite Hc; simpl; rewrite Ht. Qed.

Lemma permission_to_read_flag app api_root collection_id kv flag :
  get_collection (medallion_backend app) api_root collection_id
    = Ok (VDict kv) ->
  assoc "can_read" kv = Some flag ->
  permission_to_read app api_root collection_id =
    if is_False flag then
      Raise (ProcessingError (forbidden_read_message collection_id) 403
               None None)
    else Ok ().
Proof.
  intros Hc Hr. unfold permission_to_read. rewrite Hc. simpl. by rewrite Hr.
Qed.

Lemma permission_to_write_flag app api_root collection_id kv flag :
  get_collection (medallion_backend app) api_root collection_id
    = Ok (VDict kv) ->
  assoc "can_write" kv = Some flag ->
  permission_to_write app api_root collection_id =
    if is_False flag then
      Raise (ProcessingError (forbidden_write_message collection_id) 403
               None None)
    else Ok ().
Proof.
  intros Hc Hr. unfold permission_to_write. rewrite Hc. simpl. by rewrite Hr.
Qed.

Lemma get_response_status_and_headers_Ok_inv app request start_index
    total_count objects st hdrs :
  get_response_status_and_headers app request start_index total_count objects
    = Ok (st, hdrs) ->
  (st = 200 /\ hdrs = {["Accept-Ranges" := "items"]})
  \/ (st = 206
      /\ exists cr, hdrs = <["Content-Range" := cr]> {["Accept-Ranges" := "items"]}).
Proof.
  unfold get_response_status_and_headers.
  destruct (_ && _); [discriminate|].
  destruct (_ && _).
  - intros [= <- <-]. by left.
  - destruct (len objects) as [n|e]; simpl; [|discriminate].
    intros [= <- <-]. right. eauto.
Qed.

(** X10. On GET the list view checks in this order, once the Accept header
    and the api-root have passed: a collection the backend does not know
    gets 404; a collection whose [can_read] is [False] gets 403; only then is
    the Range header read, and one that does not match gets 400. So an
    unknown or unreadable collection is answered 404 or 403 also when the
    Range header is malformed. *)
Theorem list_get_check_order imp app request bp api_root collection_id v :
  method request = "GET" ->
  validate_stix_version_parameter_in_accept_header imp request = Ok () ->
  api_root_exists imp app api_root = Ok () ->
  get_collection (medallion_backend app) api_root collection_id = Ok v ->
  (truthy v = false ->
   (get_or_add_objects imp app request bp api_root collection_id).1 =
     Raise (ProcessingError (not_found_message collection_id) 404 None None))
  /\ (forall kv, v = VDict kv -> assoc "can_read" kv = Some (VBool false) ->
        (get_or_add_objects imp app request bp api_root collection_id).1 =
          Raise (ProcessingError (forbidden_read_message collection_id) 403
                   None None))
  /\ (forall kv flag h, v = VDict kv -> assoc "can_read" kv = Some flag ->
        flag <> VBool false ->
        headers_get request "Range" = Some h ->
        (~ exists a b, range_header_form h a b) ->
        exists cause,
          (get_or_add_objects imp app request bp api_root collection_id).1 =
            Raise (ProcessingError "Bad Range header supplied" 400 None
                     (Some cause))).
Proof.
  intros Hm Haccept Hroot Hc. unfold get_or_add_objects. rewrite Hm.
  cbn [String.eqb Ascii.eqb Bool.eqb fst]. rewrite Haccept, Hroot.
  cbn [mbind result_bind].
  split; [|split].
  - intros Hf. by rewrite (collection_exists_refuses _ _ _ _ Hc Hf).
  - intros kv -> Hr.
    rewrite (collection_exists_passes _ _ _ _ Hc (truthy_dict_with_key _ _ _ Hr)).
    cbn [mbind result_bind].
    by rewrite (permission_to_read_flag _ _ _ _ _ Hc Hr).
  - intros kv flag h -> Hr Hflag Hh Hform.
    rewrite (collection_exists_passes _ _ _ _ Hc (truthy_dict_with_key _ _ _ Hr)).
    cbn [mbind result_bind].
    rewrite (permission_to_read_flag _ _ _ _ _ Hc Hr).
    destruct (is_False flag) eqn:Hf; [by apply is_False_spec in Hf|].
    cbn [mbind result_bind].
    apply re_match_range_None in Hform.
    rewrite (get_range_request_unmatched _ _ _ Hh Hform). simpl. eauto.
Qed.

Lemma list_get_check_order_witness :
  (get_or_add_objects fixed_imports (app_with_collection VNone)
     (request_with "GET" {["Range" := "pages=1-2"]}) objects_bp "root" "c1").1
  = Raise (ProcessingError (not_found_message "c1") 404 None None).
Proof.
  pose proof (list_get_check_order fixed_imports (app_with_collection VNone)
                (request_with "GET" {["Range" := "pages=1-2"]}) objects_bp
                "root" "c1" VNone eq_refl eq_refl eq_refl eq_refl)
    as [Hunknown _].
  apply Hunknown. reflexivity.
Defined.

(** X11. Every response the list view gives on GET has status 200 or 206
    and the media type of objects, carries [Accept-Ranges: items], and has a
    [Content-Range] header exactly when its status is 206; it is given only
    after the collection was found and reading was permitted. *)
Theorem list_get_response_shape imp app request bp api_root collection_id r :
  method request = "GET" ->
  (get_or_add_objects imp app request bp api_root collection_id).1
    = Ok (Some r) ->
  (status r = 200 \/ status r = 206)
  /\ mimetype r = MEDIA_TYPE_STIX_V20 imp
  /\ response_headers r !! "Accept-Ranges" = Some "items"
  /\ (status r = 206 <-> is_Some (response_headers r !! "Content-Range"))
  /\ collection_exists app api_root collection_id = Ok ()
  /\ permission_to_read app api_root collection_id = Ok ().
Proof.
  intros Hm. unfold get_or_add_objects. rewrite Hm.
  cbn [String.eqb Ascii.eqb Bool.eqb fst].
  intros (_ & _ & H)%bind_Ok_inv. apply bind_Ok_inv in H as (_ & _ & H).
  apply bind_Ok_inv in H as ([] & Hexists & H).
  apply bind_Ok_inv in H as ([] & Hread & H).
  apply bind_Ok_inv in H as ([start_index end_index] & _ & H).
  apply bind_Ok_inv in H as ([total_count objects] & _ & H).
  destruct (truthy objects); [|discriminate].
  apply bind_Ok_inv in H as (objs & _ & H).
  apply bind_Ok_inv in H as ([st hdrs] & Hstatus & H).
  apply bind_Ok_inv in H as (hdrs' & Hcustom & H).
  injection H as <-. simpl.
  assert (Hframe : forall k, k <> first_header -> k <> last_header ->
                     hdrs' !! k = hdrs !! k)
    by (intros k; apply (get_custom_headers_other_keys _ _ _ _ _ _ _ _ k Hcustom)).
  rewrite !Hframe by discriminate.
  apply get_response_status_and_headers_Ok_inv in Hstatus
    as [[-> ->] | (-> & cr & ->)].
  - repeat split; auto; try discriminate.
    intros [cr Hcr]. by rewrite lookup_singleton_ne in Hcr.
  - repeat split; auto; try discriminate.
Qed.

Lemma list_get_response_shape_witness :
  status (page_response fixed_imports) = 200
  \/ status (page_response fixed_imports) = 206.
Proof.
  pose proof (list_get_response_shape fixed_imports
                (listing_app 5 [VStr "a"] [] 100)
                (request_with "GET" {["Range" := "items=0-0"]}) objects_bp
                "root" "c1" (page_response fixed_imports) eq_refl eq_refl)
    as [Hstatus _].
  exact Hstatus.
Defined.

(** X12. On GET, once the checks and the range have passed, the bundle the
    backend returns decides: an empty or missing bundle gets the 404 "has no
    objects available", whatever total the backend reports beside it; a
    bundle that is not empty and has no [objects] key ends in a [KeyError],
    not in a [ProcessingError]. *)
Theorem list_get_bundle_edges imp app request bp api_root collection_id
    start_index end_index total_count objects :
  method request = "GET" ->
  validate_stix_version_parameter_in_accept_header imp request = Ok () ->
  api_root_exists imp app api_root = Ok () ->
  collection_exists app api_root collection_id = Ok () ->
  permission_to_read app api_root collection_id = Ok () ->
  get_range_request_from_headers app request = Ok (start_index, end_index) ->
  get_objects (medallion_backend app) api_root collection_id (args request)
    ["id"; "type"; "version"] start_index end_index
    = Ok (total_count, objects) ->
  (truthy objects = false ->
   (get_or_add_objects imp app request bp api_root collection_id).1 =
     Raise (ProcessingError (no_objects_message collection_id) 404 None None))
  /\ (forall kv, objects = VDict kv -> kv <> [] ->
        assoc "objects" kv = None ->
        (get_or_add_objects imp app request bp api_root collection_id).1 =
          Raise (KeyError "objects")).
Proof.
  intros Hm Haccept Hroot Hexists Hread Hrange Hobjects.
  unfold get_or_add_objects. rewrite Hm.
  cbn [String.eqb Ascii.eqb Bool.eqb fst].
  rewrite Haccept, Hroot, Hexists, Hread, Hrange. cbn [mbind result_bind].
  rewrite Hobjects. cbn [mbind result_bind]. split.
  - by intros ->.
  - intros kv -> Hne Hkey. destruct kv as [|p kv]; [done|].
    cbn [truthy subscript]. by rewrite Hkey.
Qed.

Lemma list_get_bundle_edges_witness :
  (get_or_add_objects fixed_imports
     (app_with_collection (collection_record true true))
     (request_with "GET" ∅) objects_bp "root" "c1").1 =
    Raise (ProcessingError (no_objects_message "c1") 404 None None).
Proof.
  pose proof (list_get_bundle_edges fixed_imports
                (app_with_collection (collection_record true true))
                (request_with "GET" ∅) objects_bp "root" "c1" 0 99 0 VNone
                eq_refl eq_refl eq_refl eq_refl eq_refl eq_refl eq_refl)
    as [Hempty _].
  apply Hempty. reflexivity.
Defined.

(** ** The list view on POST *)

(** X13. On POST the list view checks in this order, once the Accept header
    has passed: a Content-Type that is refused ends the request with its
    415 before the backend is asked anything; then, the api-root having
    passed, a collection the backend does not know gets 404; then a
    collection whose [can_write] is [False] gets 403, whatever the
    Content-Length. *)
Theorem list_post_check_order imp app request bp api_root collection_id :
  method request = "POST" ->
  validate_taxii_version_parameter_in_accept_header imp request = Ok () ->
  (forall e,
     validate_version_parameter_in_content_type_header request = Raise e ->
     (get_or_add_objects imp app request bp api_root collection_id).1
       = Raise e
     /\ http_status e = Some 415)
  /\ (validate_version_parameter_in_content_type_header request = Ok () ->
      api_root_exists imp app api_root = Ok () ->
      forall v,
        get_collection (medallion_backend app) api_root collection_id = Ok v ->
        (truthy v = false ->
         (get_or_add_objects imp app request bp api_root collection_id).1 =
           Raise (ProcessingError (not_found_message collection_id) 404
                    None None))
        /\ (forall kv, v = VDict kv ->
              assoc "can_write" kv = Some (VBool false) ->
              (get_or_add_objects imp app request bp api_root collection_id).1 =
                Raise (ProcessingError (forbidden_write_message collection_id)
                         403 None None))).
Proof.
  intros Hm Haccept. unfold get_or_add_objects. rewrite Hm.
  cbn [String.eqb Ascii.eqb Bool.eqb fst]. rewrite Haccept.
  cbn [mbind result_bind]. split.
  - intros e He. rewrite He. split; [reflexivity|].
    by apply (content_type_rejected_415 request).
  - intros -> Hroot v Hc. rewrite Hroot. cbn [mbind result_bind]. split.
    + intros Hf. by rewrite (collection_exists_refuses _ _ _ _ Hc Hf).
    + intros kv -> Hw.
      rewrite (collection_exists_passes _ _ _ _ Hc
                 (truthy_dict_with_key _ _ _ Hw)).
      cbn [mbind result_bind].
      by rewrite (permission_to_write_flag _ _ _ _ _ Hc Hw).
Qed.

Lemma list_post_check_order_witness :
  (get_or_add_objects fixed_imports
     (app_with_collection (collection_record true false))
     (request_with "POST"
        {["content_type" := "application/vnd.oasis.stix+json; version=2.0"]})
     objects_bp "root" "c1").1 =
    Raise (ProcessingError (forbidden_write_message "c1") 403 None None).
Proof.
  pose proof (list_post_check_order fixed_imports
                (app_with_collection (collection_record true false))
                (request_with "POST"
                   {["content_type" :=
                       "application/vnd.oasis.stix+json; version=2.0"]})
                objects_bp "root" "c1" eq_refl eq_refl) as [_ Hafter].
  destruct (Hafter eq_refl eq_refl (collection_record true false) eq_refl)
    as [_ Hwrite].
  apply (Hwrite (collection_fields true false)); reflexivity.
Defined.

(** X14. A response of the list view on POST is always the 202 with the
    media type of the protocol and no extra headers, its body the status the
    backend returned for the parsed request body and the request time; and
    it is given only after the Content-Type, the existence of the
    collection, the permission to write and the size of the body have all
    passed. *)
Theorem list_post_accepted_only_after_checks imp app request bp api_root
    collection_id r :
  method request = "POST" ->
  (get_or_add_objects imp app request bp api_root collection_id).1
    = Ok (Some r) ->
  status r = 202
  /\ mimetype r = MEDIA_TYPE_TAXII_V20 imp
  /\ response_headers r = ∅
  /\ validate_version_parameter_in_content_type_header request = Ok ()
  /\ collection_exists app api_root collection_id = Ok ()
  /\ permission_to_write app api_root collection_id = Ok ()
  /\ validate_size_in_request_body app request api_root = Ok ()
  /\ exists body st,
       get_json request = Ok body
       /\ add_objects (medallion_backend app) api_root collection_id body
            (get_timestamp imp) = Ok st
       /\ response r = Some (dumps imp st).
Proof.
  intros Hm. unfold get_or_add_objects. rewrite Hm.
  cbn [String.eqb Ascii.eqb Bool.eqb fst].
  intros (_ & _ & H)%bind_Ok_inv.
  apply bind_Ok_inv in H as ([] & Htype & H).
  apply bind_Ok_inv in H as (_ & _ & H).
  apply bind_Ok_inv in H as ([] & Hexists & H).
  apply bind_Ok_inv in H as ([] & Hwrite & H).
  apply bind_Ok_inv in H as ([] & Hsize & H).
  apply bind_Ok_inv in H as (body & Hbody & H).
  apply bind_Ok_inv in H as (st & Hadd & H).
  injection H as <-. simpl. repeat split; auto. eauto.
Qed.

Lemma list_post_accepted_only_after_checks_witness :
  status (accepted_response fixed_imports) = 202.
Proof.
  pose proof (list_post_accepted_only_after_checks fixed_imports
                (listing_app 0 [] [] 100)
                (request_with "POST"
                   {["content_type" :=
                       "application/vnd.oasis.stix+json; version=2.0";
                     "content_length" := "12"]})
                objects_bp "root" "c1" (accepted_response fixed_imports)
                eq_refl eq_refl) as [Hstatus _].
  exact Hstatus.
Defined.

(** ** The view of a single object *)

(** X15. On DELETE the view of a single object asks the backend to delete
    and nothing else: its result is the 200 with no body whenever the
    backend's [delete_object] succeeds, and the backend's exception
    otherwise. It does not depend on the collection record, so it is the
    same for two applications whose backends delete alike, whatever they
    answer about the collection and its permissions. *)
Theorem delete_skips_permission_checks imp app request api_root
    collection_id object_id :
  method request = "DELETE" ->
  (delete_object (medallion_backend app) api_root collection_id object_id
     (to_dict (args request)) ["version"; "spec_version"] = Ok () ->
   get_or_delete_object imp app request api_root collection_id object_id =
     Ok (Some {| response := None; status := 200; response_headers := ∅;
                 mimetype := MEDIA_TYPE_STIX_V20 imp |}))
  /\ (forall e,
        delete_object (medallion_backend app) api_root collection_id object_id
          (to_dict (args request)) ["version"; "spec_version"] = Raise e ->
        get_or_delete_object imp app request api_root collection_id object_id
        = Raise e)
  /\ (forall app',
        delete_object (medallion_backend app') api_root collection_id object_id
          (to_dict (args request)) ["version"; "spec_version"]
        = delete_object (medallion_backend app) api_root collection_id
            object_id (to_dict (args request)) ["version"; "spec_version"] ->
        get_or_delete_object imp app' request api_root collection_id object_id
        = get_or_delete_object imp app request api_root collection_id
            object_id).
Proof.
  intros Hm. unfold get_or_delete_object. rewrite Hm.
  cbn [String.eqb Ascii.eqb Bool.eqb].
  split; [by intros ->|]. split; [by intros e ->|].
  by intros app' ->.
Qed.

Lemma delete_skips_permission_checks_witness :
  get_or_delete_object fixed_imports (app_with_collection VNone)
    (request_with "DELETE" ∅) "root" "c1" "o1"
  = get_or_delete_object fixed_imports
      (app_with_collection (collection_record true true))
      (request_with "DELETE" ∅) "root" "c1" "o1".
Proof.
  pose proof (delete_skips_permission_checks fixed_imports
                (app_with_collection (collection_record true true))
                (request_with "DELETE" ∅) "root" "c1" "o1" eq_refl)
    as (_ & _ & Hsame).
  apply (Hsame (app_with_collection VNone)). reflexivity.
Defined.

(** X16. On GET the view of a single object, once reading is permitted and
    the limit is valid, answers an empty result of the backend in two ways:
    with 404 when the request has no query parameter at all, and with 200
    and the empty result as body as soon as it has any, the [limit]
    parameter alone included. *)
Theorem object_get_empty_result imp app request api_root collection_id
    object_id limit objects hdrs :
  method request = "GET" ->
  permission_to_read app api_root collection_id = Ok () ->
  validate_limit_parameter app request = Ok limit ->
  get_object (medallion_backend app) api_root collection_id object_id
    (to_dict (args request)) ["version"; "spec_version"] limit
    = Ok (objects, hdrs) ->
  truthy objects = false ->
  (args request = [] ->
   get_or_delete_object imp app request api_root collection_id object_id =
     Raise (ProcessingError (object_not_found_message object_id) 404
              None None))
  /\ (args request <> [] ->
      get_or_delete_object imp app request api_root collection_id object_id =
        Ok (Some {| response := Some (dumps imp objects); status := 200;
                    response_headers := hdrs;
                    mimetype := MEDIA_TYPE_STIX_V20 imp |})).
Proof.
  intros Hm Hread Hlimit Hget Hempty. unfold get_or_delete_object. rewrite Hm.
  cbn [String.eqb Ascii.eqb Bool.eqb]. rewrite Hread, Hlimit.
  cbn [mbind result_bind]. rewrite Hget. cbn [mbind result_bind].
  rewrite Hempty. split.
  - by intros ->.
  - intros Hne. by destruct (args request).
Qed.

Lemma object_get_empty_result_witness :
  get_or_delete_object fixed_imports
    (app_with_collection (collection_record true true))
    (request_with_args "GET" [("limit", "5")]) "root" "c1" "o1"
  = Ok (Some {| response := Some (dumps fixed_imports VNone); status := 200;
                response_headers := ∅;
                mimetype := MEDIA_TYPE_STIX_V20 fixed_imports |}).
Proof.
  pose proof (object_get_empty_result fixed_imports
                (app_with_collection (collection_record true true))
                (request_with_args "GET" [("limit", "5")]) "root" "c1" "o1"
                5 VNone ∅ eq_refl eq_refl eq_refl eq_refl eq_refl)
    as [_ Hfiltered].
  apply Hfiltered. discriminate.
Defined.

(** ** What the views ask of the backend *)

Lemma validate_limit_le_max app request l :
  validate_limit_parameter app request = Ok l -> l <= max_page_size app.
Proof.
  unfold validate_limit_parameter.
  destruct (try_except _ _ _) as [n|e]; simpl; [|discriminate].
  case_bools; try discriminate; intros [= <-]; lia.
Qed.

Lemma range_span_le_max app request s e :
  get_range_request_from_headers app request = Ok (s, e) ->
  e - s + 1 <= max_page_size app.
Proof.
  destruct (headers_get request "Range") as [h|] eqn:Hh.
  - destruct (re_match_range h) as [m|] eqn:Hm.
    + apply re_match_range_spec in Hm as (a & b & -> & Hf).
      rewrite (get_range_request_of_form _ _ _ _ _ Hh Hf).
      destruct (_ && _); [|discriminate].
      case_bools; intros [= <- <-]; lia.
    + by rewrite (get_range_request_unmatched _ _ _ Hh Hm).
  - rewrite (get_range_request_absent _ _ Hh). intros [= <- <-]. lia.
Qed.

(** X17. Whenever the list view answers a GET with a response, the body is
    the bundle the backend returned for a range of at most [max_page_size]
    items: the range asked of the backend is the one read from the Range
    header, cut back to the page size, and the bundle is not empty. *)
Theorem list_get_asks_within_page_size imp app request bp api_root
    collection_id r :
  method request = "GET" ->
  (get_or_add_objects imp app request bp api_root collection_id).1
    = Ok (Some r) ->
  exists start_index end_index total_count objects,
    get_range_request_from_headers app request = Ok (start_index, end_index)
    /\ end_index - start_index + 1 <= max_page_size app
    /\ get_objects (medallion_backend app) api_root collection_id
         (args request) ["id"; "type"; "version"] start_index end_index
       = Ok (total_count, objects)
    /\ truthy objects = true
    /\ response r = Some (dumps imp objects).
Proof.
  intros Hm. unfold get_or_add_objects. rewrite Hm.
  cbn [String.eqb Ascii.eqb Bool.eqb fst].
  intros (_ & _ & H)%bind_Ok_inv. apply bind_Ok_inv in H as (_ & _ & H).
  apply bind_Ok_inv in H as (_ & _ & H).
  apply bind_Ok_inv in H as (_ & _ & H).
  apply bind_Ok_inv in H as ([start_index end_index] & Hrange & H).
  apply bind_Ok_inv in H as ([total_count objects] & Hobjects & H).
  destruct (truthy objects) eqn:Htruthy; [|discriminate].
  apply bind_Ok_inv in H as (objs & _ & H).
  apply bind_Ok_inv in H as ([st hdrs] & _ & H).
  apply bind_Ok_inv in H as (hdrs' & _ & H).
  injection H as <-. simpl.
  exists start_index, end_index, total_count, objects.
  split; [done|]. split; [by apply (range_span_le_max app request)|]. done.
Qed.

Lemma list_get_asks_within_page_size_witness :
  exists start_index end_index total_count objects,
    get_range_request_from_headers (listing_app 5 [VStr "a"] [] 100)
      (request_with "GET" {["Range" := "items=0-0"]})
    = Ok (start_index, end_index)
    /\ end_index - start_index + 1
       <= max_page_size (listing_app 5 [VStr "a"] [] 100)
    /\ get_objects (medallion_backend (listing_app 5 [VStr "a"] [] 100))
         "root" "c1" (args (request_with "GET" {["Range" := "items=0-0"]}))
         ["id"; "type"; "version"] start_index end_index
       = Ok (total_count, objects)
    /\ truthy objects = true
    /\ response (page_response fixed_imports)
       = Some (dumps fixed_imports objects).
Proof.
  apply (list_get_asks_within_page_size fixed_imports
           (listing_app 5 [VStr "a"] [] 100)
           (request_with "GET" {["Range" := "items=0-0"]}) objects_bp
           "root" "c1" (page_response fixed_imports));
    reflexivity.
Defined.

(** X18. Whenever the view of a single object answers a GET with a
    response, it is a 200 with the media type of objects, given after
    reading was permitted; its body and headers are what the backend
    returned when asked with the first value of every query parameter and a
    limit of at most [max_page_size]. *)
Theorem object_get_asks_within_page_size imp app request api_root
    collection_id object_id r :
  method request = "GET" ->
  get_or_delete_object imp app request api_root collection_id object_id
    = Ok (Some r) ->
  status r = 200
  /\ mimetype r = MEDIA_TYPE_STIX_V20 imp
  /\ permission_to_read app api_root collection_id = Ok ()
  /\ exists limit objects,
       validate_limit_parameter app request = Ok limit
       /\ limit <= max_page_size app
       /\ get_object (medallion_backend app) api_root collection_id object_id
            (to_dict (args request)) ["version"; "spec_version"] limit
          = Ok (objects, response_headers r)
       /\ response r = Some (dumps imp objects).
Proof.
  intros Hm. unfold get_or_delete_object. rewrite Hm.
  cbn [String.eqb Ascii.eqb Bool.eqb].
  intros ([] & Hread & H)%bind_Ok_inv.
  apply bind_Ok_inv in H as (limit & Hlimit & H).
  apply bind_Ok_inv in H as ([objects hdrs] & Hget & H).
  destruct (_ || _); [|discriminate]. injection H as <-. simpl.
  repeat split; auto. exists limit, objects.
  split; [done|]. split; [by apply (validate_limit_le_max app request)|]. done.
Qed.

Lemma object_get_asks_within_page_size_witness :
  status (object_response fixed_imports) = 200.
Proof.
  pose proof (object_get_asks_within_page_size fixed_imports
                (listing_app 1 [VStr "a"] [] 100)
                (request_with_args "GET" [("limit", "250")]) "root" "c1" "o1"
                (object_response fixed_imports) eq_refl eq_refl)
    as [Hstatus _].
  exact Hstatus.
Defined.

(** The query parameters reach the backend with the first value of every
    key, the value [request.args.get] reads too. *)
Lemma to_dict_first_value a k : to_dict a !! k = assoc k a.
Proof.
  induction a as [|[k' v] a IH]; simpl; [apply lookup_empty|].
  destruct (String.eqb_spec k k') as [->|Hne].
  - apply lookup_insert_eq.
  - by rewrite lookup_insert_ne.
Qed.
